(** * A shallow embedding of [processor.py] (class [DataProcessor])

    The pipeline of [DataProcessor.run] is
    fetch_sample_data -> process_data -> perform_analysis -> save_results.
    Python exceptions are results of a small error monad, Python dicts are
    association lists in insertion order, and the pandas, requests, csv and
    json calls the source makes are modelled by the functions below, each
    next to the source line that calls it.

    Conventions of the model:
    - a Python [str] is a Rocq [string] whose characters stand for the code
      points 0..255;
    - the values of a raw record are integers, strings and [None]
      ([value]); a JSON array of the payload holds flat objects;
    - a float64 is NaN or the rational that it stands for ([float]); an
      arithmetic operation on float64 numbers rounds its exact result to
      the nearest number with a significand of 53 bits, a tie to the one
      with the even significand ([fl]).  The range of the exponent is not
      modelled: no number of the program comes near its ends;
    - the cells of a float64 column that pandas gets by upcasting integers
      keep their integers, and the column's dtype says that they are
      floats; pandas adds the integers of a column up in float64, which is
      the exact sum as long as the absolute values add up to 2^53 at most
      ([sum], [mean]);
    - [save_results] writes under /tmp/cronjob_output, which is taken to
      be a directory that the process may write to and that has no
      directory below it;
    - the libraries are those of a current image: Python 3.13, pandas 2.x
      (object dtype for strings), requests 2.27 or later;
    - logging, [time.sleep] and the random batches of [simulate_work] leave
      no value behind and are not modelled. *)

From Stdlib Require Import List ZArith QArith Qround Qpower Qabs String Ascii Bool Lia.
From Stdlib Require Import DecimalString DecimalZ DecimalPos Permutation Sorted Lqa.
Import ListNotations.

Set Warnings "-register-all".

Local Open Scope string_scope.
Local Open Scope Z_scope.

(* ------------------------------------------------------------------ *)
(** ** Exceptions *)

Inductive exn : Type :=
| RequestException (what : string)   (* requests.RequestException and subclasses *)
| KeyError (key : string)
| TypeError
| AttributeError
| ValueError
| OSError.

Inductive result (A : Type) : Type :=
| Ok (a : A)
| Raise (e : exn).

Arguments Ok {A} a.
Arguments Raise {A} e.

Definition bind {A B : Type} (m : result A) (f : A -> result B) : result B :=
  match m with
  | Ok a => f a
  | Raise e => Raise e
  end.

Notation "x <- m ;; k" := (bind m (fun x => k))
  (at level 61, m at next level, right associativity).

(* ------------------------------------------------------------------ *)
(** ** Python strings *)

(** [str(n)] and the [{n}] of an f-string, for an integer. *)
Definition str_of_Z (z : Z) : string := NilZero.string_of_int (Z.to_int z).

(** [len(s)] *)
Definition len (s : string) : Z := Z.of_nat (String.length s).

(** [c.isspace()] on the code points below 256. *)
Definition isspace (c : ascii) : bool :=
  let n := nat_of_ascii c in
  ((9 <=? n) && (n <=? 13) || (28 <=? n) && (n <=? 32)
   || (n =? 133) || (n =? 160))%nat.

Definition is_empty (s : string) : bool :=
  match s with EmptyString => true | _ => false end.

(** [s.split()]: runs of whitespace separate the tokens, no empty token.
    [cur] is the token being read. *)
Fixpoint split_from (cur : string) (s : string) : list string :=
  match s with
  | EmptyString => if is_empty cur then [] else [cur]
  | String c s' =>
      if isspace c
      then (if is_empty cur then split_from "" s' else cur :: split_from "" s')
      else split_from (cur ++ String c "") s'
  end.

Definition split (s : string) : list string := split_from "" s.

(** [s[:n]] *)
Fixpoint str_prefix (n : nat) (s : string) : string :=
  match n, s with
  | S n', String c s' => String c (str_prefix n' s')
  | _, _ => ""
  end.

(** [sep.join(l)] *)
Fixpoint join (sep : string) (l : list string) : string :=
  match l with
  | [] => ""
  | [x] => x
  | x :: l' => x ++ sep ++ join sep l'
  end.

(* ------------------------------------------------------------------ *)
(** ** Raw records *)

Inductive value : Type :=
| VNone
| VInt (z : Z)
| VStr (s : string).

(** A dict with string keys, in insertion order. *)
Definition dict (A : Type) : Type := list (string * A).

Fixpoint dict_get {A : Type} (k : string) (d : dict A) : option A :=
  match d with
  | [] => None
  | (k', v) :: d' => if String.eqb k k' then Some v else dict_get k d'
  end.

Definition keys {A : Type} (d : dict A) : list string := map fst d.

Definition record : Type := dict value.

(** [range(n)] *)
Definition range (n : nat) : list Z := map Z.of_nat (seq 0 n).

(* ------------------------------------------------------------------ *)
(** ** DataProcessor._generate_mock_data *)

Definition mock_entry (i : Z) : record :=
  [ ("id", VInt (i + 1));
    ("title", VStr ("Sample Data Entry " ++ str_of_Z (i + 1)));
    ("body", VStr ("This is mock data entry number " ++ str_of_Z (i + 1)));
    ("userId", VInt (i mod 3 + 1)) ].

Definition _generate_mock_data : list record := map mock_entry (range 10).

(* ------------------------------------------------------------------ *)
(** ** DataProcessor.fetch_sample_data *)

(** What [response.json()] can hold. *)
Inductive json : Type :=
| JNull
| JBool (b : bool)
| JInt (z : Z)
| JStr (s : string)
| JArr (l : list record)
| JObj (d : record).

(** The body of a response: text that is not JSON, or a JSON document. *)
Inductive body : Type :=
| NotJson
| Json (j : json).

(** What the remote retrieval can come to. *)
Inductive outcome : Type :=
| Timeout
| ConnectionError
| Response (status : Z) (b : body).

(** What [fetch_sample_data] hands to [process_data]: a list of records,
    or the [str] that slicing a JSON string gives. *)
Inductive pydata : Type :=
| DList (l : list record)
| DStr (s : string).

(** [requests.get(url, timeout=30)] *)
Definition requests_get (o : outcome) : result (Z * body) :=
  match o with
  | Timeout => Raise (RequestException "Timeout")
  | ConnectionError => Raise (RequestException "ConnectionError")
  | Response status b => Ok (status, b)
  end.

(** [response.raise_for_status()]: HTTPError for a 4xx or 5xx status. *)
Definition raise_for_status (r : Z * body) : result unit :=
  if (400 <=? fst r) && (fst r <? 600)
  then Raise (RequestException "HTTPError")
  else Ok tt.

(** [response.json()]: requests.JSONDecodeError (a RequestException) when
    the body is not JSON. *)
Definition response_json (r : Z * body) : result json :=
  match snd r with
  | NotJson => Raise (RequestException "JSONDecodeError")
  | Json j => Ok j
  end.

(** [x[:10]].  A list and a str are sliced; None, bool and int are not
    subscriptable (TypeError); a dict looks the slice up as a key and does
    not find it (KeyError; before Python 3.12 a TypeError for the
    unhashable slice, no RequestException either way). *)
Definition slice10 (j : json) : result pydata :=
  match j with
  | JArr l => Ok (DList (firstn 10 l))
  | JStr s => Ok (DStr (str_prefix 10 s))
  | JNull | JBool _ | JInt _ => Raise TypeError
  | JObj _ => Raise (KeyError "slice(None, 10, None)")
  end.

Definition fetch_sample_data (o : outcome) : result pydata :=
  let attempt :=
    response <- requests_get o ;;
    _ <- raise_for_status response ;;
    j <- response_json response ;;
    slice10 j in
  match attempt with
  | Raise (RequestException _) => Ok (DList _generate_mock_data)
  | r => r
  end.

(* ------------------------------------------------------------------ *)
(** ** pandas: Series and DataFrame *)

Inductive cell : Type :=
| CNaN                 (* np.nan, what a missing key becomes *)
| CNone
| CInt (z : Z)
| CStr (s : string).

Inductive dtype : Type := Int64 | Float64 | Object.

Record Series : Type := mkSeries { dtype_of : dtype; cells : list cell }.

(** Columns in their order; every column has [nrows] cells. *)
Record DataFrame : Type := mkDataFrame { nrows : nat; columns : dict Series }.

Definition cell_of (v : value) : cell :=
  match v with
  | VNone => CNone
  | VInt z => CInt z
  | VStr s => CStr s
  end.

Definition is_str (c : cell) : bool := match c with CStr _ => true | _ => false end.
Definition is_int (c : cell) : bool := match c with CInt _ => true | _ => false end.
Definition is_nan (c : cell) : bool := match c with CNaN => true | _ => false end.
Definition isna (c : cell) : bool :=
  match c with CNaN | CNone => true | _ => false end.
Definition notna (c : cell) : bool := negb (isna c).

Definition none_to_nan (c : cell) : cell :=
  match c with CNone => CNaN | _ => c end.

(** The union of the records' keys, in the order of their first
    appearance. *)
Definition add_key (seen : list string) (k : string) : list string :=
  if existsb (String.eqb k) seen then seen else seen ++ [k].

Definition column_names (rs : list record) : list string :=
  fold_left (fun seen r => fold_left add_key (keys r) seen) rs [].

(** lib.dicts_to_array: the cells of column [k], np.nan where a record
    has no key [k]. *)
Definition dicts_to_array (rs : list record) (k : string) : list cell :=
  map (fun r => match dict_get k r with
                | Some v => cell_of v
                | None => CNaN
                end) rs.

(** lib.maybe_convert_objects: a string keeps the column at object dtype;
    integers alone are int64, integers with a missing value float64;
    None and np.nan together are float64; None alone stays object. *)
Definition maybe_convert_objects (cs : list cell) : Series :=
  if existsb is_str cs then mkSeries Object cs
  else if existsb is_int cs then
    (if existsb isna cs then mkSeries Float64 (map none_to_nan cs)
     else mkSeries Int64 cs)
  else if existsb is_nan cs then mkSeries Float64 (map none_to_nan cs)
  else mkSeries Object cs.

(** [pd.DataFrame(raw_data)]: a list of dicts becomes the frame with one
    row per dict; a str is refused (ValueError, DataFrame constructor not
    properly called). *)
Definition frame (rs : list record) : DataFrame :=
  mkDataFrame (List.length rs)
    (map (fun k => (k, maybe_convert_objects (dicts_to_array rs k)))
         (column_names rs)).

Definition pd_DataFrame (raw_data : pydata) : result DataFrame :=
  match raw_data with
  | DList rs => Ok (frame rs)
  | DStr _ => Raise ValueError
  end.

(** [df[k]] *)
Definition getitem (df : DataFrame) (k : string) : result Series :=
  match dict_get k (columns df) with
  | Some s => Ok s
  | None => Raise (KeyError k)
  end.

(** [d[k] = v] on a dict: in place when the key is there, else at the
    end. *)
Fixpoint dict_set {A : Type} (k : string) (v : A) (d : dict A) : dict A :=
  match d with
  | [] => [(k, v)]
  | (k', v') :: d' =>
      if String.eqb k k' then (k, v) :: d' else (k', v') :: dict_set k v d'
  end.

(** [df[k] = series] *)
Definition setitem (df : DataFrame) (k : string) (s : Series) : DataFrame :=
  mkDataFrame (nrows df) (dict_set k s (columns df)).

(** [df[k] = x] for a str [x]: the scalar on every row. *)
Definition setitem_scalar (df : DataFrame) (k : string) (x : string) : DataFrame :=
  setitem df k (mkSeries Object (repeat (CStr x) (nrows df))).

(** [series.str]: refused on a numeric column (AttributeError, can only
    use .str accessor with string values). *)
Definition str_accessor (s : Series) : result (list cell) :=
  match dtype_of s with
  | Object => Ok (cells s)
  | Int64 | Float64 => Raise AttributeError
  end.

(** The column of the lengths [cs], as [.str.len()] returns it: int64, or
    float64 once a length is missing; when no row has a length, the
    values are not converted and the column is the object column of None
    that it was (an object column without a str holds nothing but None);
    the empty column is int64. *)
Definition lengths_series (cs : list cell) : Series :=
  if existsb is_int cs
  then mkSeries (if existsb is_nan cs then Float64 else Int64) cs
  else match cs with
       | [] => mkSeries Int64 []
       | _ :: _ => mkSeries Object (map (fun _ => CNone) cs)
       end.

(** [series.str.len()]: the length of a str, np.nan for anything else. *)
Definition str_len (s : Series) : result Series :=
  cs <- str_accessor s ;;
  Ok (lengths_series
        (map (fun c => match c with CStr x => CInt (len x) | _ => CNaN end) cs)).

(** [series.str.split()]: the list of tokens of a str, missing ([None]
    here) for anything else.  The result is an object column. *)
Definition str_split (s : Series) : result (list (option (list string))) :=
  cs <- str_accessor s ;;
  Ok (map (fun c => match c with CStr x => Some (split x) | _ => None end) cs).

(** [.str.len()] on the column of token lists. *)
Definition list_len (ls : list (option (list string))) : Series :=
  lengths_series
    (map (fun o => match o with
                   | Some l => CInt (Z.of_nat (List.length l))
                   | None => CNaN
                   end) ls).

(* ------------------------------------------------------------------ *)
(** ** pandas: reductions, groupby *)

(** A float64: a rational or NaN. *)
Inductive float : Type :=
| FNaN
| F (q : Q).

(** np.rint: to the nearest integer, a half to the even one. *)
Definition rint (q : Q) : Z :=
  let f := Qfloor q in
  match Qcompare (q - inject_Z f) (1 # 2) with
  | Lt => f
  | Gt => f + 1
  | Eq => if Z.even f then f else f + 1
  end.

Definition pow2 (e : Z) : Q := Qpower (inject_Z 2) e.

(** The exponent of a positive number [a]: 2^e <= a < 2^(e+1). *)
Definition exponent (a : Q) : Z :=
  let e0 := Z.log2 (Qnum a) - Z.log2 (Zpos (Qden a)) in
  if Qle_bool (pow2 e0) a then e0 else e0 - 1.

(** The float64 of a positive number: the multiple of the unit in the
    last place (52 binary digits below the leading one) that is nearest
    to it, the even multiple on a tie. *)
Definition fl_pos (a : Q) : Q :=
  let ulp := pow2 (exponent a - 52) in
  Qred (inject_Z (rint (a / ulp)) * ulp).

(** The rounding of every float64 operation: the result is [fl] of the
    exact result. *)
Definition fl (x : Q) : Q :=
  match Qcompare x 0 with
  | Eq => 0%Q
  | Gt => fl_pos x
  | Lt => Qred (- fl_pos (- x))
  end.

(** The numbers of a column, missing values skipped (skipna). *)
Definition numbers (cs : list cell) : list Z :=
  flat_map (fun c => match c with CInt z => [z] | _ => [] end) cs.

Definition zsum (l : list Z) : Z := fold_right Z.add 0 l.

(** [.count()]: the cells that are not missing. *)
Definition count (cs : list cell) : Z := Z.of_nat (List.length (filter notna cs)).

(** [.sum()] *)
Definition sum (cs : list cell) : Z := zsum (numbers cs).

(** [.mean()]: the float64 sum of the numbers (their sum, under the
    convention on sums) divided, in float64, by their count; NaN when
    every cell is missing. *)
Definition mean (cs : list cell) : float :=
  match numbers cs with
  | [] => FNaN
  | z :: l =>
      F (fl (inject_Z (zsum (z :: l)) / inject_Z (Z.of_nat (List.length (z :: l)))))
  end.

(** [.min()] and [.max()]: missing when every cell is missing. *)
Definition min (cs : list cell) : option Z :=
  match numbers cs with
  | [] => None
  | z :: l => Some (fold_right Z.min z l)
  end.

Definition max (cs : list cell) : option Z :=
  match numbers cs with
  | [] => None
  | z :: l => Some (fold_right Z.max z l)
  end.

(** [.round(2)] on a float: np.round, that is rint(x * 100) / 100, the
    product and the quotient in float64. *)
Definition round2 (x : float) : float :=
  match x with
  | FNaN => FNaN
  | F q => F (fl (inject_Z (rint (fl (q * inject_Z 100))) / inject_Z 100))
  end.

(** The cells that a sum, mean, min or max goes over.  An object column
    in which every value is missing is reduced like a column without
    numbers; a reduction that needs numbers refuses the other object
    columns (TypeError), which the columns that [process_data] sets are
    not. *)
Definition numeric (s : Series) : result (list cell) :=
  match dtype_of s with
  | Object => if forallb isna (cells s) then Ok (cells s) else Raise TypeError
  | Int64 | Float64 => Ok (cells s)
  end.

(** The keys of a dict that [to_dict] builds from an index: an int, a
    float (of integer value, from an upcast column) or a str. *)
Inductive pykey : Type :=
| KInt (z : Z)
| KFloat (z : Z)
| KStr (s : string).

Definition key_of (d : dtype) (c : cell) : option pykey :=
  match c with
  | CInt z => Some (match d with Float64 => KFloat z | _ => KInt z end)
  | CStr s => Some (KStr s)
  | CNaN | CNone => None
  end.

Definition key_eqb (a b : pykey) : bool :=
  match a, b with
  | KInt x, KInt y => x =? y
  | KFloat x, KFloat y => x =? y
  | KStr x, KStr y => String.eqb x y
  | _, _ => false
  end.

(** The order of the group keys: numbers by value and before strings,
    strings by code points. *)
Definition key_leb (a b : pykey) : bool :=
  match a, b with
  | (KInt x | KFloat x), (KInt y | KFloat y) => x <=? y
  | (KInt _ | KFloat _), KStr _ => true
  | KStr _, (KInt _ | KFloat _) => false
  | KStr x, KStr y => String.leb x y
  end.

(** The distinct keys, in the order of their first appearance. *)
Fixpoint unique (ks : list pykey) : list pykey :=
  match ks with
  | [] => []
  | k :: ks' => k :: filter (fun k' => negb (key_eqb k k')) (unique ks')
  end.

Fixpoint insert_sorted (k : pykey) (ks : list pykey) : list pykey :=
  match ks with
  | [] => [k]
  | k' :: ks' => if key_leb k k' then k :: ks else k' :: insert_sorted k ks'
  end.

Definition sort_keys (ks : list pykey) : list pykey :=
  fold_right insert_sorted [] ks.

(** The keys of the rows that have one (dropna). *)
Definition row_keys (by_ : Series) : list (option pykey) :=
  map (key_of (dtype_of by_)) (cells by_).

(** The groups of [groupby(by)]: the distinct keys, ascending. *)
Definition group_keys (by_ : Series) : list pykey :=
  sort_keys (unique (flat_map (fun o => match o with Some k => [k] | None => [] end)
                              (row_keys by_))).

(** [a == b] on the values of a column. *)
Definition cell_eqb (a b : cell) : bool :=
  match a, b with
  | CInt x, CInt y => x =? y
  | CStr x, CStr y => String.eqb x y
  | CNaN, CNaN | CNone, CNone => true
  | _, _ => false
  end.

(** [.unique()]: the distinct values, in the order of their first
    appearance. *)
Fixpoint unique_cells (cs : list cell) : list cell :=
  match cs with
  | [] => []
  | c :: cs' => c :: filter (fun c' => negb (cell_eqb c c')) (unique_cells cs')
  end.

(** [.nunique()]: the number of distinct values that are not missing
    (dropna). *)
Definition nunique (s : Series) : Z :=
  Z.of_nat (List.length (unique_cells (filter notna (cells s)))).

Definition in_group (k : pykey) (o : option pykey) : bool :=
  match o with
  | Some k' => key_eqb k k'
  | None => false
  end.

(** The cells of column [col] on the rows of group [k]. *)
Definition group_cells (by_ : Series) (k : pykey) (col : list cell) : list cell :=
  map snd (filter (fun p => in_group k (fst p)) (combine (row_keys by_) col)).

(** An int or a float, as Python tells them apart. *)
Inductive number : Type :=
| Int (z : Z)
| Float (x : float).

(** The sum of a column as pandas types it: an int for int64 and for an
    object column of missing values (the int 0), a float for float64. *)
Definition typed_sum (d : dtype) (cs : list cell) : number :=
  match d with
  | Float64 => Float (F (inject_Z (sum cs)))
  | Int64 | Object => Int (sum cs)
  end.

(** One row of the per-user statistics, under the column names of the
    aggregation: 'id' holds the count, 'title_length' the mean,
    'body_word_count' the sum. *)
Record AggRow : Type := mkAggRow {
  agg_id : Z;
  agg_title_length : float;
  agg_body_word_count : number
}.

(** The statistics of group [k]: the count of 'id', the mean of
    'title_length' after [.round(2)], the sum of 'body_word_count'
    (rounding leaves the count and an integer-valued sum as they are). *)
Definition agg (by_ id tl wc : Series) (k : pykey) : AggRow :=
  mkAggRow (count (group_cells by_ k (cells id)))
           (round2 (mean (group_cells by_ k (cells tl))))
           (typed_sum (dtype_of wc) (group_cells by_ k (cells wc))).

(** [df.groupby('userId').agg({'id': 'count', 'title_length': 'mean',
    'body_word_count': 'sum'}).round(2)], the rows in the order of the
    keys. *)
Definition user_stats (df : DataFrame) : result (list (pykey * AggRow)) :=
  by_ <- getitem df "userId" ;;
  id <- getitem df "id" ;;
  tl <- getitem df "title_length" ;;
  wc <- getitem df "body_word_count" ;;
  _ <- numeric tl ;;
  _ <- numeric wc ;;
  Ok (map (fun k => (k, agg by_ id tl wc k)) (group_keys by_)).

(* ------------------------------------------------------------------ *)
(** ** DataProcessor.process_data *)

(** [now] is what [datetime.now(timezone.utc).isoformat()] returns. *)
Definition process_data (now : string) (raw_data : pydata) : result DataFrame :=
  df <- pd_DataFrame raw_data ;;
  let df := setitem_scalar df "processed_at" now in
  title <- getitem df "title" ;;
  title_length <- str_len title ;;
  let df := setitem df "title_length" title_length in
  body <- getitem df "body" ;;
  tokens <- str_split body ;;
  let df := setitem df "body_word_count" (list_len tokens) in
  _ <- user_stats df ;;
  Ok df.

(* ------------------------------------------------------------------ *)
(** ** Python objects that [json.dump] accepts *)

Inductive pyobj : Type :=
| PNone
| PBool (b : bool)
| PInt (z : Z)
| PFloat (x : float)
| PStr (s : string)
| PDict (items : list (pykey * pyobj)).

Fixpoint py_get (k : pykey) (items : list (pykey * pyobj)) : option pyobj :=
  match items with
  | [] => None
  | (k', v) :: items' => if key_eqb k k' then Some v else py_get k items'
  end.

(** [o[k]] for a dict [o]. *)
Definition py_item (k : pykey) (o : pyobj) : option pyobj :=
  match o with
  | PDict items => py_get k items
  | _ => None
  end.

Fixpoint py_set (k : pykey) (v : pyobj) (items : list (pykey * pyobj))
  : list (pykey * pyobj) :=
  match items with
  | [] => [(k, v)]
  | (k', v') :: items' =>
      if key_eqb k k' then (k, v) :: items' else (k', v') :: py_set k v items'
  end.

Definition py_of_number (n : number) : pyobj :=
  match n with
  | Int z => PInt z
  | Float x => PFloat x
  end.

(** [.to_dict('index')] on the statistics: key -> {column -> value}. *)
Definition to_dict_index (stats : list (pykey * AggRow)) : pyobj :=
  PDict (map (fun kr =>
                (fst kr,
                 PDict [ (KStr "id", PInt (agg_id (snd kr)));
                         (KStr "title_length", PFloat (agg_title_length (snd kr)));
                         (KStr "body_word_count",
                          py_of_number (agg_body_word_count (snd kr))) ]))
             stats).

(** [int(x)] on the result of [.min()] or [.max()]: ValueError on NaN. *)
Definition int_of_opt (o : option Z) : result Z :=
  match o with
  | Some z => Ok z
  | None => Raise ValueError
  end.

(* ------------------------------------------------------------------ *)
(** ** DataProcessor.perform_analysis *)

(** The attributes of [self] that the pipeline reads. *)
Record DataProcessor : Type := mkDataProcessor {
  cronjob_name : string;
  execution_uuid : string;
  manual_trigger : bool
}.

Definition perform_analysis (self : DataProcessor) (now : string) (df : DataFrame)
  : result pyobj :=
  let execution_info :=
    PDict [ (KStr "cronjob_name", PStr (cronjob_name self));
            (KStr "execution_uuid", PStr (execution_uuid self));
            (KStr "manual_trigger", PBool (manual_trigger self));
            (KStr "processed_at", PStr now) ] in
  let total_records := Z.of_nat (nrows df) in
  userId <- getitem df "userId" ;;
  let unique_users := nunique userId in
  title_length <- getitem df "title_length" ;;
  tl <- numeric title_length ;;
  let avg_title_length := mean tl in
  body_word_count <- getitem df "body_word_count" ;;
  wc <- numeric body_word_count ;;
  let total_words := sum wc in
  min_title_length <- int_of_opt (min tl) ;;
  max_title_length <- int_of_opt (max tl) ;;
  stats <- user_stats df ;;
  Ok (PDict
        [ (KStr "execution_info", execution_info);
          (KStr "data_summary",
           PDict [ (KStr "total_records", PInt total_records);
                   (KStr "unique_users", PInt unique_users);
                   (KStr "avg_title_length", PFloat avg_title_length);
                   (KStr "total_words", PInt total_words);
                   (KStr "min_title_length", PInt min_title_length);
                   (KStr "max_title_length", PInt max_title_length) ]);
          (KStr "user_breakdown", to_dict_index stats) ]).

(* ------------------------------------------------------------------ *)
(** ** json.dump and json.load

    The JSON file is held as the document that [json.dump] writes: its
    members and values, not its text (the indentation and the digits of a
    float are not modelled).  What [json.dump] changes is the keys: the
    keys of a JSON object are strings, an int or float key is written as
    its [str]. *)

Inductive jsdoc : Type :=
| JsNull
| JsBool (b : bool)
| JsInt (z : Z)
| JsFloat (x : float)
| JsString (s : string)
| JsObject (members : list (string * jsdoc)).

(** The key of a member: [str(k)] for a number.  The repr of a float of
    integer value below 10^16 ends in [.0]. *)
Definition key_str (k : pykey) : string :=
  match k with
  | KInt z => str_of_Z z
  | KFloat z => str_of_Z z ++ ".0"
  | KStr s => s
  end.

Fixpoint json_dump (o : pyobj) : jsdoc :=
  match o with
  | PNone => JsNull
  | PBool b => JsBool b
  | PInt z => JsInt z
  | PFloat x => JsFloat x
  | PStr s => JsString s
  | PDict items =>
      JsObject (map (fun kv => match kv with
                               | (k, v) => (key_str k, json_dump v)
                               end) items)
  end.

(** [json.load]: an object becomes a dict with str keys, filled member by
    member (a repeated key keeps its place and takes the later value). *)
Fixpoint json_load (d : jsdoc) : pyobj :=
  match d with
  | JsNull => PNone
  | JsBool b => PBool b
  | JsInt z => PInt z
  | JsFloat x => PFloat x
  | JsString s => PStr s
  | JsObject members =>
      PDict (fold_left (fun acc kv => match kv with
                                      | (k, v) => py_set (KStr k) (json_load v) acc
                                      end) members [])
  end.

(* ------------------------------------------------------------------ *)
(** ** csv.writer and DataFrame.to_csv *)

Definition dquote : ascii := ascii_of_nat 34.
Definition comma : ascii := ascii_of_nat 44.
Definition LF : ascii := ascii_of_nat 10.
Definition CR : ascii := ascii_of_nat 13.

(** The characters that make csv.writer quote a field (QUOTE_MINIMAL):
    the delimiter, the quote character, a line feed, a carriage return. *)
Definition special (c : ascii) : bool :=
  Ascii.eqb c comma || Ascii.eqb c dquote || Ascii.eqb c LF || Ascii.eqb c CR.

Fixpoint needs_quote (s : string) : bool :=
  match s with
  | EmptyString => false
  | String c s' => special c || needs_quote s'
  end.

(** doublequote=True: a quote character inside a field is written twice. *)
Fixpoint double_quotes (s : string) : string :=
  match s with
  | EmptyString => EmptyString
  | String c s' =>
      if Ascii.eqb c dquote
      then String dquote (String dquote (double_quotes s'))
      else String c (double_quotes s')
  end.

Definition quoted (s : string) : string :=
  String dquote (double_quotes s ++ String dquote EmptyString).

Definition quote_field (s : string) : string :=
  if needs_quote s then quoted s else s.

(** [writer.writerow(fields)], line terminator [\n].  A row that is one
    empty field is written as a pair of quotes. *)
Definition writerow (fields : list string) : string :=
  match fields with
  | [EmptyString] => quoted EmptyString ++ String LF EmptyString
  | _ => join (String comma EmptyString) (map quote_field fields)
         ++ String LF EmptyString
  end.

(** The text of a cell: nothing for a missing value (na_rep), [str] of an
    integer, the repr of a float of integer value. *)
Definition cell_text (d : dtype) (c : cell) : string :=
  match c with
  | CNaN | CNone => ""
  | CStr s => s
  | CInt z => match d with
              | Float64 => str_of_Z z ++ ".0"
              | Int64 | Object => str_of_Z z
              end
  end.

(** Row [i] of the frame, one text per column. *)
Definition csv_row (df : DataFrame) (i : nat) : list string :=
  map (fun kc => cell_text (dtype_of (snd kc)) (nth i (cells (snd kc)) CNaN))
      (columns df).

Definition csv_rows (df : DataFrame) : list (list string) :=
  map (csv_row df) (seq 0 (nrows df)).

(** [writer.writerows(rows)] *)
Fixpoint writerows (rows : list (list string)) : string :=
  match rows with
  | [] => ""
  | row :: rows' => writerow row ++ writerows rows'
  end.

(** [df.to_csv(path, index=False)]: the header, then the rows. *)
Definition to_csv (df : DataFrame) : string :=
  writerows (keys (columns df) :: csv_rows df).

(* ------------------------------------------------------------------ *)
(** ** DataProcessor.save_results, simulate_work, run *)

Inductive file : Type :=
| CsvFile (text : string)
| JsonFile (doc : jsdoc).

(** The files under their paths. *)
Definition filesystem : Type := dict file.

Definition output_dir : string := "/tmp/cronjob_output".

Definition csv_path (self : DataProcessor) : string :=
  output_dir ++ "/processed_data_" ++ execution_uuid self ++ ".csv".

Definition json_path (self : DataProcessor) : string :=
  output_dir ++ "/analysis_" ++ execution_uuid self ++ ".json".

Definition slash : ascii := ascii_of_nat 47.

Fixpoint has_slash (s : string) : bool :=
  match s with
  | EmptyString => false
  | String c s' => Ascii.eqb c slash || has_slash s'
  end.

(** The bytes of a str in the file system encoding (UTF-8): one for a code
    point below 128, two for the others below 256. *)
Fixpoint utf8_length (s : string) : nat :=
  match s with
  | EmptyString => 0
  | String c s' => (if (nat_of_ascii c <? 128)%nat then 1 else 2) + utf8_length s'
  end.

(** [open(output_dir + '/' + name, 'w')], as [to_csv] and [open] do it:
    [os.makedirs] has made [output_dir] and nothing below it, so a name
    with a '/' points into a directory that is not there
    (FileNotFoundError), and a name of more than 255 bytes is refused
    (OSError, file name too long). *)
Definition open_w (name : string) : result unit :=
  if has_slash name || (255 <? utf8_length name)%nat then Raise OSError else Ok tt.

Definition csv_name (self : DataProcessor) : string :=
  "processed_data_" ++ execution_uuid self ++ ".csv".

Definition json_name (self : DataProcessor) : string :=
  "analysis_" ++ execution_uuid self ++ ".json".

(** What [save_results] leaves when both files open: the CSV text under
    [csv_path], the JSON document under [json_path]. *)
Definition save_results (self : DataProcessor) (df : DataFrame) (analysis : pyobj)
    (fs : filesystem) : filesystem :=
  let fs := dict_set (csv_path self) (CsvFile (to_csv df)) fs in
  dict_set (json_path self) (JsonFile (json_dump analysis)) fs.

(** [self.save_results(df, analysis)] as [run] calls it: OSError when a
    file does not open.  The name of the CSV file is the longer one and
    both hold the execution id, so the JSON file opens whenever the CSV
    file does, and a failure leaves no file behind. *)
Definition try_save_results (self : DataProcessor) (df : DataFrame) (analysis : pyobj)
    (fs : filesystem) : result filesystem :=
  _ <- open_w (csv_name self) ;;
  _ <- open_w (json_name self) ;;
  Ok (save_results self df analysis fs).

(** Three batches of random numbers and three sleeps: nothing is kept. *)
Definition simulate_work (fs : filesystem) : filesystem := fs.

(** [run] returns the exit code; the file system is threaded through.
    [t_process] and [t_analysis] are the two readings of the clock. *)
Definition run (self : DataProcessor) (t_process t_analysis : string)
    (o : outcome) (fs : filesystem) : Z * filesystem :=
  let pipeline :=
    raw_data <- fetch_sample_data o ;;
    processed_df <- process_data t_process raw_data ;;
    analysis <- perform_analysis self t_analysis processed_df ;;
    fs <- try_save_results self processed_df analysis fs ;;
    Ok (simulate_work fs) in
  match pipeline with
  | Ok fs' => (0, fs')
  | Raise _ => (1, fs)
  end.

(* ------------------------------------------------------------------ *)
(** ** DataProcessor.__init__ and main *)

(** The environment of the process: variable -> value. *)
Definition environ : Type := dict string.

(** [os.getenv(k, default)] *)
Definition getenv (env : environ) (k default : string) : string :=
  match dict_get k env with
  | Some v => v
  | None => default
  end.

(** [c.lower()] on the code points below 256: A..Z and the capital
    letters 192..222 (but the multiplication sign, 215) move up by 32. *)
Definition lower_char (c : ascii) : ascii :=
  let n := nat_of_ascii c in
  if ((65 <=? n) && (n <=? 90)
      || (192 <=? n) && (n <=? 222) && negb (n =? 215))%nat
  then ascii_of_nat (n + 32)
  else c.

(** [s.lower()] *)
Fixpoint lower (s : string) : string :=
  match s with
  | EmptyString => EmptyString
  | String c s' => String (lower_char c) (lower s')
  end.

(** The attributes that [__init__] reads from the environment (the
    start time only feeds the log). *)
Definition __init__ (env : environ) : DataProcessor :=
  mkDataProcessor
    (getenv env "CRONJOB_NAME" "dockerfile-data-processor")
    (getenv env "CRONJOB_EXECUTION_UUID" "local-run")
    (String.eqb (lower (getenv env "MANUAL_TRIGGER" "false")) "true").

(** [main]: the exit status that [sys.exit] gives the process, and the
    file system the run leaves. *)
Definition main (env : environ) (t_process t_analysis : string)
    (o : outcome) (fs : filesystem) : Z * filesystem :=
  let processor := __init__ env in
  run processor t_process t_analysis o fs.

(* ================================================================== *)
(** * Vocabulary of the statements *)

(** Some record has the key [k]; some record holds a str under [k]. *)
Definition has_key (k : string) (rs : list record) : bool :=
  existsb (fun r => existsb (String.eqb k) (keys r)) rs.

Definition has_str (k : string) (rs : list record) : bool :=
  existsb (fun r => match dict_get k r with Some (VStr _) => true | _ => false end) rs.

(** What a record's title and body come to in the derived columns. *)
Definition title_length_cell (r : record) : cell :=
  match dict_get "title" r with
  | Some (VStr s) => CInt (len s)
  | _ => CNaN
  end.

Definition word_count_cell (r : record) : cell :=
  match dict_get "body" r with
  | Some (VStr s) => CInt (Z.of_nat (List.length (split s)))
  | _ => CNaN
  end.

(** The frame of the records with the three derived columns set. *)
Definition derived (now : string) (rs : list record) : DataFrame :=
  setitem
    (setitem (setitem_scalar (frame rs) "processed_at" now)
             "title_length" (lengths_series (map title_length_cell rs)))
    "body_word_count" (lengths_series (map word_count_cell rs)).

(** The number of whitespace-delimited tokens of a string, counted by the
    places where a token starts: a character that is not whitespace, at
    the start or after whitespace. *)
Fixpoint token_starts (after_space : bool) (s : string) : nat :=
  match s with
  | EmptyString => 0
  | String c s' =>
      (if after_space && negb (isspace c) then 1 else 0)%nat
      + token_starts (isspace c) s'
  end.

Definition whitespace_token_count (s : string) : Z := Z.of_nat (token_starts true s).

(** The number of characters of a string. *)
Definition character_count (s : string) : Z := Z.of_nat (String.length s).

(** Example batches: the three records of the scenario, a batch with a
    null title, a batch with no title at all. *)
Definition scenario : list record :=
  [ [("id", VInt 1); ("title", VStr "AB"); ("body", VStr "a b c"); ("userId", VInt 1)];
    [("id", VInt 2); ("title", VStr "CDE"); ("body", VStr "d e"); ("userId", VInt 1)];
    [("id", VInt 3); ("title", VStr "F"); ("body", VStr "g"); ("userId", VInt 2)] ].

Definition null_title_batch : list record :=
  [ [("id", VInt 1); ("title", VNone); ("body", VStr "a b c"); ("userId", VInt 1)];
    [("id", VInt 2); ("title", VStr "CDE"); ("body", VStr "d e"); ("userId", VInt 1)] ].

Definition no_title_batch : list record :=
  [ [("id", VInt 1); ("body", VStr "a b c"); ("userId", VInt 1)] ].

(** The outcomes that requests reports as a RequestException: a timeout, a
    transport error, a 4xx or 5xx status, a body that is not JSON. *)
Definition request_fails (o : outcome) : bool :=
  match o with
  | Timeout | ConnectionError => true
  | Response status b =>
      (400 <=? status) && (status <? 600)
      || match b with NotJson => true | Json _ => false end
  end.

(** The outcomes whose payload is a JSON array. *)
Definition array_payload (o : outcome) : bool :=
  match o with
  | Response _ (Json (JArr _)) => true
  | _ => false
  end.

(** A field of a record as an integer. *)
Definition int_field (k : string) (r : record) : option Z :=
  match dict_get k r with
  | Some (VInt z) => Some z
  | _ => None
  end.

Definition an_instance : DataProcessor :=
  mkDataProcessor "dockerfile-data-processor" "local-run" false.

(** A column of [n] integers, int64. *)
Definition int_column (n : nat) (s : Series) : bool :=
  match dtype_of s with
  | Int64 => forallb is_int (cells s) && (List.length (cells s) =? n)%nat
  | Float64 | Object => false
  end.

Definition int_column_at (df : DataFrame) (k : string) : bool :=
  match getitem df k with
  | Ok s => int_column (nrows df) s
  | Raise _ => false
  end.

(** A frame of derived records: id, userId, title_length and
    body_word_count are there and hold an integer on every row. *)
Definition derived_frame (df : DataFrame) : bool :=
  int_column_at df "id" && int_column_at df "userId"
  && int_column_at df "title_length" && int_column_at df "body_word_count".

(** The integers of column [k], row by row. *)
Definition column_ints (df : DataFrame) (k : string) : list Z :=
  match getitem df k with
  | Ok s => numbers (cells s)
  | Raise _ => []
  end.

(** The cell of column [k] on row [i]. *)
Definition cell_at (df : DataFrame) (k : string) (i : nat) : option cell :=
  match getitem df k with
  | Ok s => nth_error (cells s) i
  | Raise _ => None
  end.

(** A raw record as the data model types it: integer id and userId,
    string title and body. *)
Definition wf_record (r : record) : bool :=
  match int_field "id" r, dict_get "title" r, dict_get "body" r, int_field "userId" r with
  | Some _, Some (VStr _), Some (VStr _), Some _ => true
  | _, _, _, _ => false
  end.

(** The values [xs] of the records whose group, in [gs], is [g]. *)
Definition group_values (g : Z) (gs xs : list Z) : list Z :=
  map snd (filter (fun p => fst p =? g) (combine gs xs)).

(** Round half to even: [m] is the integer nearest to [x], the even one
    when [x] is half-way between two integers. *)
Definition nearest_even (x : Q) (m : Z) : Prop :=
  (- (1 # 2) <= x - inject_Z m)%Q /\ (x - inject_Z m <= 1 # 2)%Q
  /\ ((x - inject_Z m == 1 # 2)%Q \/ (x - inject_Z m == - (1 # 2))%Q -> Z.even m = true).



(** The numbers that a float64 holds, the range of the exponent aside: an
    integer of 53 bits at most times a power of 2. *)
Definition is_float64 (q : Q) : Prop :=
  exists m e : Z, Z.abs m <= 2 ^ 53 /\ (q == inject_Z m * pow2 e)%Q.

(** [q] is a float64 nearest to [x]. *)
Definition nearest_float64 (x q : Q) : Prop :=
  is_float64 q /\ forall r, is_float64 r -> (Qabs (q - x) <= Qabs (r - x))%Q.


(** The arithmetic mean of a list of integers that is not empty. *)
Definition arithmetic_mean (l : list Z) : Q :=
  (inject_Z (zsum l) / inject_Z (Z.of_nat (List.length l)))%Q.

(** The absolute values of the integers add up to 2^53 at most, so that
    float64 holds every partial sum of them exactly. *)
Definition exact_sum (l : list Z) : bool := zsum (map Z.abs l) <=? 2 ^ 53.



(** The outcomes with a status that passes and a JSON payload that is
    not an array. *)
Definition not_an_array (o : outcome) : bool :=
  match o with
  | Response status (Json j) =>
      negb ((400 <=? status) && (status <? 600))
      && match j with JArr _ => false | _ => true end
  | _ => false
  end.

(** A reply that reports an error as a JSON object. *)
Definition error_object : outcome :=
  Response 200 (Json (JObj [("error", VStr "Too Many Requests")])).

(** The key of a value that is not missing. *)
Definition key_or_zero (d : dtype) (c : cell) : pykey :=
  match key_of d c with
  | Some k => k
  | None => KInt 0
  end.

(** What reading back the written JSON document gives. *)
Definition round_trip (o : pyobj) : pyobj := json_load (json_dump o).

(** A dict with every key replaced by the str that [json.dump] writes
    for it. *)
Definition str_keys (items : list (pykey * pyobj)) : list (pykey * pyobj) :=
  map (fun kv => (KStr (key_str (fst kv)), snd kv)) items.

(** A reader of CSV text: fields are separated by commas and rows ended
    by line feeds; a field in quotes runs to the closing quote, and holds
    a quote for every two in a row.  An empty line is a row without
    fields.  [field] is the field being read, [row] the fields read
    before it. *)
Inductive reader_state : Type :=
| StartRow | StartField | InField | InQuoted | AfterQuote.

Fixpoint read_from (st : reader_state) (field : string) (row : list string)
    (s : string) : list (list string) :=
  match s with
  | EmptyString =>
      match st with
      | StartRow => []
      | _ => [(row ++ [field])%list]
      end
  | String c s' =>
      match st with
      | StartRow | StartField =>
          if Ascii.eqb c dquote then read_from InQuoted "" row s'
          else if Ascii.eqb c comma then read_from StartField "" (row ++ [""]) s'
          else if Ascii.eqb c LF then
            match st with
            | StartRow => [] :: read_from StartRow "" [] s'
            | _ => (row ++ [""])%list :: read_from StartRow "" [] s'
            end
          else read_from InField (String c "") row s'
      | InField =>
          if Ascii.eqb c comma then read_from StartField "" (row ++ [field]) s'
          else if Ascii.eqb c LF then
            (row ++ [field])%list :: read_from StartRow "" [] s'
          else read_from InField (field ++ String c "") row s'
      | InQuoted =>
          if Ascii.eqb c dquote then read_from AfterQuote field row s'
          else read_from InQuoted (field ++ String c "") row s'
      | AfterQuote =>
          if Ascii.eqb c dquote
          then read_from InQuoted (field ++ String dquote "") row s'
          else if Ascii.eqb c comma then read_from StartField "" (row ++ [field]) s'
          else if Ascii.eqb c LF then
            (row ++ [field])%list :: read_from StartRow "" [] s'
          else read_from InField (field ++ String c "") row s'
      end
  end.

Definition read_csv (s : string) : list (list string) :=
  read_from StartRow "" [] s.

(** The three columns that [process_data] sets. *)
Definition derived_names : list string :=
  ["processed_at"; "title_length"; "body_word_count"].

(** A batch with the keys in the order of the remote API. *)
Definition api_order_batch : list record :=
  [ [("userId", VInt 1); ("id", VInt 1); ("title", VStr "AB"); ("body", VStr "a b c")] ].

(** What the reader does once a field is complete, at the separator
    [sep] (a comma or a line feed). *)
Definition after_field (sep : ascii) (row : list string) (f : string)
    (rest : string) : list (list string) :=
  if Ascii.eqb sep comma then read_from StartField "" (row ++ [f]) rest
  else (row ++ [f])%list :: read_from StartRow "" [] rest.


(* ================================================================== *)
(** * Vocabulary of the further properties *)

(** Column [k] of the frame of the records has object dtype, so that the
    [.str] accessor takes it. *)
Definition object_column (k : string) (rs : list record) : bool :=
  match dtype_of (maybe_convert_objects (dicts_to_array rs k)) with
  | Object => true
  | Int64 | Float64 => false
  end.

(** A batch for the witnesses: null titles only. *)
Definition null_titles_only_batch : list record :=
  [ [("id", VInt 1); ("title", VNone); ("body", VStr "a b c"); ("userId", VInt 1)];
    [("id", VInt 2); ("title", VNone); ("body", VStr "d e"); ("userId", VInt 2)] ].

(** The integer that a sum holds when it is an int. *)
Definition int_of_number (n : number) : option Z :=
  match n with
  | Int z => Some z
  | Float _ => None
  end.

(** An instance with another execution id. *)
Definition another_instance : DataProcessor :=
  mkDataProcessor "dockerfile-data-processor" "run-2" true.

(** The record holds a str under [k]. *)
Definition str_field (k : string) (r : record) : bool :=
  match dict_get k r with
  | Some (VStr _) => true
  | _ => false
  end.

(** An execution id that is a plain part of a file name: no '/', and
    236 bytes at most, so that the longer of the two file names has 255
    bytes at most. *)
Definition plain_id (s : string) : bool :=
  negb (has_slash s) && (utf8_length s <=? 236)%nat.


(* ================================================================== *)
(** * Properties *)

(** ** float64 rounding *)

Lemma pow2_pos (e : Z) : (0 < pow2 e)%Q.
Proof. apply Qpower_0_lt. reflexivity. Qed.

Lemma pow2_add (a b : Z) : (pow2 (a + b) == pow2 a * pow2 b)%Q.
Proof. apply Qpower_plus. discriminate. Qed.

Lemma pow2_Z (k : Z) : 0 <= k -> (pow2 k == inject_Z (2 ^ k))%Q.
Proof. intros H. unfold pow2. now rewrite Zpower_Qpower. Qed.

Lemma pow2_succ (e : Z) : (pow2 (e + 1) == 2 * pow2 e)%Q.
Proof. rewrite pow2_add. change (pow2 1) with 2%Q. ring. Qed.

Lemma exponent_spec (a : Q) :
  (0 < a)%Q -> (pow2 (exponent a) <= a)%Q /\ (a < pow2 (exponent a + 1))%Q.
Proof.
  intros Ha. unfold exponent.
  destruct a as [N D]. cbn [Qnum Qden].
  assert (HN : 0 < N) by (unfold Qlt in Ha; simpl in Ha; lia).
  set (lN := Z.log2 N). set (lD := Z.log2 (Z.pos D)).
  assert (HlN : 0 <= lN) by apply Z.log2_nonneg.
  assert (HlD : 0 <= lD) by apply Z.log2_nonneg.
  destruct (Z.log2_spec N HN) as [N1 N2]. fold lN in N1, N2.
  destruct (Z.log2_spec (Z.pos D) (Pos2Z.is_pos D)) as [D1 D2]. fold lD in D1, D2.
  rewrite Z.pow_succ_r in N2, D2 by assumption.
  set (P := pow2 (lN - lD)).
  assert (HP : (P * inject_Z (2 ^ lD) == inject_Z (2 ^ lN))%Q).
  { unfold P. rewrite <- !pow2_Z by assumption. rewrite <- pow2_add.
    now replace (lN - lD + lD) with lN by lia. }
  assert (HPpos : (0 < P)%Q) by apply pow2_pos.
  assert (Ea : ((N # D) * inject_Z (Z.pos D) == inject_Z N)%Q).
  { unfold Qeq; simpl. rewrite Pos.mul_1_r. ring. }
  set (a := (N # D)%Q) in *.
  assert (A1 : (inject_Z (2 ^ lN) <= inject_Z N)%Q) by (rewrite <- Zle_Qle; exact N1).
  assert (A2 : (inject_Z N < 2 * inject_Z (2 ^ lN))%Q).
  { change 2%Q with (inject_Z 2). rewrite <- inject_Z_mult, <- Zlt_Qlt. exact N2. }
  assert (B1 : (inject_Z (2 ^ lD) <= inject_Z (Z.pos D))%Q) by (rewrite <- Zle_Qle; exact D1).
  assert (B2 : (inject_Z (Z.pos D) < 2 * inject_Z (2 ^ lD))%Q).
  { change 2%Q with (inject_Z 2). rewrite <- inject_Z_mult, <- Zlt_Qlt. exact D2. }
  assert (B0 : (0 < inject_Z (2 ^ lD))%Q).
  { change 0%Q with (inject_Z 0). rewrite <- Zlt_Qlt. apply Z.pow_pos_nonneg; lia. }
  set (A := inject_Z (2 ^ lN)) in *. set (B := inject_Z (2 ^ lD)) in *.
  set (na := inject_Z N) in *. set (da := inject_Z (Z.pos D)) in *.
  destruct (Qle_bool P a) eqn:Hle.
  - apply Qle_bool_iff in Hle. split; [exact Hle|].
    rewrite pow2_succ. fold P.
    apply Qnot_le_lt. intros Hc.
    assert (H1 : (2 * P * da <= a * da)%Q) by (apply Qmult_le_compat_r; [exact Hc | lra]).
    assert (H2 : (P * B <= P * da)%Q) by (apply Qmult_le_l; [exact HPpos | exact B1]).
    lra.
  - assert (Hlt : (a < P)%Q).
    { apply Qnot_le_lt. intros Hc. apply Qle_bool_iff in Hc. congruence. }
    replace (lN - lD - 1 + 1) with (lN - lD) by lia. fold P. split; [|exact Hlt].
    assert (E2 : (pow2 (lN - lD - 1) * 2 == P)%Q).
    { unfold P. replace (lN - lD) with (lN - lD - 1 + 1) at 2 by lia.
      rewrite pow2_succ. ring. }
    apply Qnot_lt_le. intros Hc.
    assert (H1 : (a * da < pow2 (lN - lD - 1) * da)%Q) by (apply Qmult_lt_compat_r; [lra | exact Hc]).
    assert (H2 : (pow2 (lN - lD - 1) * da <= pow2 (lN - lD - 1) * (2 * B))%Q).
    { apply Qmult_le_l; [apply pow2_pos | lra]. }
    assert (H3 : (pow2 (lN - lD - 1) * (2 * B) == P * B)%Q) by (rewrite <- E2; ring).
    lra.
Qed.

Lemma rint_nearest_even (x : Q) : nearest_even x (rint x).
Proof.
  unfold nearest_even, rint.
  pose proof (Qfloor_le x) as Hlo. pose proof (Qlt_floor x) as Hhi.
  rewrite inject_Z_plus in Hhi. change (inject_Z 1) with 1%Q in Hhi.
  assert (E1 : (inject_Z (Qfloor x + 1) == inject_Z (Qfloor x) + 1)%Q)
    by (rewrite inject_Z_plus; reflexivity).
  set (f := Qfloor x) in *. set (a := inject_Z f) in *.
  destruct (Qcompare_spec (x - a) (1 # 2)) as [He|Hlt|Hgt].
  - destruct (Z.even f) eqn:Hev.
    + fold a. rewrite He. repeat split; try lra; intros _; exact Hev.
    + rewrite E1. repeat split; try lra. intros _.
      rewrite Z.add_1_r, Z.even_succ, <- Z.negb_even, Hev. reflexivity.
  - fold a. repeat split; lra.
  - rewrite E1. repeat split; lra.
Qed.



Lemma Qabs_bounds (b : Q) : (b <= Qabs b)%Q /\ (- b <= Qabs b)%Q.
Proof. split; [apply Qle_Qabs|]. rewrite <- Qabs_opp. apply Qle_Qabs. Qed.

Lemma rint_closest (t : Q) (k : Z) :
  (Qabs (inject_Z (rint t) - t) <= Qabs (inject_Z k - t))%Q.
Proof.
  destruct (rint_nearest_even t) as [H1 [H2 _]].
  set (m := rint t) in *.
  destruct (Qabs_bounds (inject_Z k - t)) as [B1 B2].
  apply Qabs_Qle_condition.
  destruct (Z.lt_trichotomy k m) as [Hlt | [-> | Hgt]].
  - assert (Hk : (inject_Z k + 1 <= inject_Z m)%Q).
    { change 1%Q with (inject_Z 1). rewrite <- inject_Z_plus, <- Zle_Qle. lia. }
    split; lra.
  - split; lra.
  - assert (Hk : (inject_Z m + 1 <= inject_Z k)%Q).
    { change 1%Q with (inject_Z 1). rewrite <- inject_Z_plus, <- Zle_Qle. lia. }
    split; lra.
Qed.

Lemma pow2_ge_1 (k : Z) : 0 <= k -> (1 <= pow2 k)%Q.
Proof.
  intros Hk. rewrite pow2_Z by exact Hk.
  change 1%Q with (inject_Z 1). rewrite <- Zle_Qle.
  pose proof (Z.pow_pos_nonneg 2 k). lia.
Qed.

Lemma pow2_mono (a b : Z) : a <= b -> (pow2 a <= pow2 b)%Q.
Proof.
  intros H. replace b with (a + (b - a)) by lia. rewrite pow2_add.
  pose proof (pow2_pos a). pose proof (pow2_ge_1 (b - a) ltac:(lia)).
  setoid_replace (pow2 a) with (pow2 a * 1)%Q at 1 by ring.
  apply Qmult_le_l; assumption.
Qed.

Lemma fl_pos_spec (a : Q) :
  (0 < a)%Q ->
  let U := pow2 (exponent a - 52) in
  let m := rint (a / U) in
  (fl_pos a == inject_Z m * U)%Q
  /\ 2 ^ 52 <= m <= 2 ^ 53
  /\ (a / U * U == a)%Q
  /\ (inject_Z (2 ^ 52) * U == pow2 (exponent a))%Q.
Proof.
  intros Ha U m.
  destruct (exponent_spec a Ha) as [Hlo Hhi].
  assert (HU : (0 < U)%Q) by apply pow2_pos.
  assert (HU52 : (inject_Z (2 ^ 52) * U == pow2 (exponent a))%Q).
  { unfold U. rewrite <- (pow2_Z 52) by lia. rewrite <- pow2_add.
    now replace (52 + (exponent a - 52)) with (exponent a) by lia. }
  assert (Et : (a / U * U == a)%Q).
  { unfold Qdiv. rewrite <- Qmult_assoc, (Qmult_comm (/ U)), Qmult_inv_r; [ring|].
    intros E0. rewrite E0 in HU. discriminate. }
  split; [unfold fl_pos; apply Qred_correct|].
  split; [|split; assumption].
  assert (T1 : (inject_Z (2 ^ 52) <= a / U)%Q).
  { apply Qle_shift_div_l; [exact HU|]. rewrite HU52. exact Hlo. }
  assert (T2 : (a / U < inject_Z (2 ^ 53))%Q).
  { apply Qlt_shift_div_r; [exact HU|].
    change (inject_Z (2 ^ 53)) with (2 * inject_Z (2 ^ 52))%Q.
    rewrite <- Qmult_assoc, HU52, <- pow2_succ. exact Hhi. }
  destruct (rint_nearest_even (a / U)) as [H1 [H2 _]]. fold m in H1, H2.
  split.
  - apply Z.nlt_ge. intros Hc.
    assert (Hk : (inject_Z m + 1 <= inject_Z (2 ^ 52))%Q).
    { change 1%Q with (inject_Z 1). rewrite <- inject_Z_plus, <- Zle_Qle. lia. }
    lra.
  - apply Z.nlt_ge. intros Hc.
    assert (Hk : (inject_Z (2 ^ 53) + 1 <= inject_Z m)%Q).
    { change 1%Q with (inject_Z 1). rewrite <- inject_Z_plus, <- Zle_Qle. lia. }
    lra.
Qed.

Lemma fl_pos_nearest (a : Q) : (0 < a)%Q -> nearest_float64 a (fl_pos a).
Proof.
  intros Ha. destruct (fl_pos_spec a Ha) as [Efl [Hm [Et HU52]]].
  destruct (exponent_spec a Ha) as [Hlo Hhi].
  set (e := exponent a) in *. set (U := pow2 (e - 52)) in *.
  set (t := (a / U)%Q) in *. set (m := rint t) in *.
  assert (HU : (0 < U)%Q) by apply pow2_pos.
  split.
  - exists m, (e - 52). split; [lia | exact Efl].
  - intros r [m' [e' [Hm' Er]]].
    (* the distance of the result, in units of U *)
    assert (Hq : (Qabs (fl_pos a - a) == Qabs (inject_Z m - t) * U)%Q).
    { rewrite Efl. setoid_replace (inject_Z m * U - a)%Q with ((inject_Z m - t) * U)%Q
        by (rewrite <- Et at 1; ring).
      rewrite Qabs_Qmult, (Qabs_pos U) by lra. reflexivity. }
    rewrite Hq.
    destruct (Z_le_gt_dec (e - 52) e') as [He | He].
    + (* r is a multiple of U *)
      set (k := m' * 2 ^ (e' - (e - 52))).
      assert (Ek : (r == inject_Z k * U)%Q).
      { rewrite Er. unfold k, U. rewrite inject_Z_mult, <- pow2_Z by lia.
        rewrite <- Qmult_assoc, <- pow2_add.
        now replace (e' - (e - 52) + (e - 52)) with e' by lia. }
      setoid_replace (r - a)%Q with ((inject_Z k - t) * U)%Q
        by (rewrite Ek; rewrite <- Et at 1; ring).
      rewrite Qabs_Qmult, (Qabs_pos U) by lra.
      apply Qmult_le_compat_r; [apply rint_closest | lra].
    + (* r is at most 2^e in size *)
      assert (Hr : (r <= pow2 e)%Q).
      { rewrite Er.
        assert (P1 : (pow2 e' <= pow2 (e - 53))%Q) by (apply pow2_mono; lia).
        assert (P2 : (inject_Z m' <= inject_Z (2 ^ 53))%Q) by (rewrite <- Zle_Qle; lia).
        assert (P3 : (inject_Z (2 ^ 53) * pow2 (e - 53) == pow2 e)%Q).
        { rewrite <- (pow2_Z 53) by lia. rewrite <- pow2_add.
          now replace (53 + (e - 53)) with e by lia. }
        pose proof (pow2_pos e') as P4.
        destruct (Qlt_le_dec (inject_Z m') 0) as [Hn | Hp].
        - assert (inject_Z m' * pow2 e' <= 0)%Q; [|pose proof (pow2_pos e); lra].
          setoid_replace 0%Q with (0 * pow2 e')%Q by ring.
          apply Qmult_le_compat_r; lra.
        - rewrite <- P3.
          apply Qle_trans with (inject_Z m' * pow2 (e - 53))%Q.
          + rewrite (Qmult_comm (inject_Z m') (pow2 e')), (Qmult_comm (inject_Z m')).
            apply Qmult_le_compat_r; assumption.
          + apply Qmult_le_compat_r; [exact P2 | pose proof (pow2_pos (e - 53)); lra]. }
      pose proof (rint_closest t (2 ^ 52)) as Hc. fold m in Hc.
      assert (Hc' : (Qabs (inject_Z (2 ^ 52) - t) * U == a - pow2 e)%Q).
      { rewrite Qabs_neg.
        - rewrite <- HU52. rewrite <- Et at 1. ring.
        - assert (inject_Z (2 ^ 52) <= t)%Q; [|lra].
          unfold t. apply Qle_shift_div_l; [exact HU|]. rewrite HU52. exact Hlo. }
      apply Qle_trans with (Qabs (inject_Z (2 ^ 52) - t) * U)%Q.
      * apply Qmult_le_compat_r; [exact Hc | lra].
      * rewrite Hc'. destruct (Qabs_bounds (r - a)) as [B1 B2]. lra.
Qed.

Lemma is_float64_opp (q : Q) : is_float64 q -> is_float64 (- q).
Proof.
  intros [m [e [Hm E]]]. exists (- m), e. split; [lia|].
  rewrite E, inject_Z_opp. ring.
Qed.

Lemma is_float64_Z (z : Z) : Z.abs z <= 2 ^ 53 -> is_float64 (inject_Z z).
Proof.
  intros H. exists z, 0. split; [exact H|]. change (pow2 0) with 1%Q. ring.
Qed.

Lemma is_float64_proper (q q' : Q) : (q == q')%Q -> is_float64 q -> is_float64 q'.
Proof. intros E [m [e [Hm E']]]. exists m, e. split; [exact Hm|]. now rewrite <- E. Qed.

Lemma fl_nearest (x : Q) : nearest_float64 x (fl x).
Proof.
  unfold fl. destruct (Qcompare_spec x 0) as [E|Hlt|Hgt].
  - split; [exact (is_float64_Z 0 ltac:(lia))|].
    intros r _. rewrite E. setoid_replace (0 - 0)%Q with 0%Q by ring.
    apply Qabs_nonneg.
  - assert (Hneg : (0 < - x)%Q) by lra.
    destruct (fl_pos_nearest (- x) Hneg) as [Hf Hn]. split.
    + apply (is_float64_proper (- fl_pos (- x))); [symmetry; apply Qred_correct|].
      now apply is_float64_opp.
    + intros r Hr. rewrite Qred_correct.
      specialize (Hn (- r)%Q (is_float64_opp r Hr)).
      setoid_replace (- fl_pos (- x) - x)%Q with (- (fl_pos (- x) - - x))%Q by ring.
      setoid_replace (r - x)%Q with (- (- r - - x))%Q by ring.
      now rewrite !Qabs_opp.
  - now apply fl_pos_nearest.
Qed.


Lemma nearest_float64_between (x q lo hi : Q) :
  nearest_float64 x q -> is_float64 lo -> is_float64 hi ->
  (lo <= x)%Q -> (x <= hi)%Q -> (lo <= q)%Q /\ (q <= hi)%Q.
Proof.
  intros [_ Hn] Hlo Hhi H1 H2.
  pose proof (Hn lo Hlo) as Nlo. pose proof (Hn hi Hhi) as Nhi.
  rewrite (Qabs_neg (lo - x)) in Nlo by lra.
  rewrite (Qabs_pos (hi - x)) in Nhi by lra.
  destruct (Qabs_bounds (q - x)) as [B1 B2].
  split; lra.
Qed.


(** ** Dicts *)

Section DictFacts.
Context {A : Type}.

Lemma dict_get_set (k k' : string) (v : A) (d : dict A) :
  dict_get k (dict_set k' v d) = if String.eqb k k' then Some v else dict_get k d.
Proof.
  induction d as [|[k0 v0] d IH]; simpl.
  - destruct (String.eqb k k'); reflexivity.
  - destruct (String.eqb_spec k' k0) as [->|Hne]; simpl.
    + destruct (String.eqb k k0); reflexivity.
    + rewrite IH. destruct (String.eqb_spec k k0) as [->|Hne'].
      * destruct (String.eqb_spec k0 k') as [E|_]; [congruence | reflexivity].
      * reflexivity.
Qed.

Lemma keys_dict_set (k : string) (v : A) (d : dict A) :
  keys (dict_set k v d) = add_key (keys d) k.
Proof.
  unfold add_key.
  induction d as [|[k0 v0] d IH]; simpl; [reflexivity|].
  destruct (String.eqb_spec k k0) as [->|Hne]; simpl; [reflexivity|].
  rewrite IH. destruct (existsb (String.eqb k) (keys d)); reflexivity.
Qed.

Lemma dict_get_tabulate (f : string -> A) (ks : list string) (k : string) :
  dict_get k (map (fun k0 => (k0, f k0)) ks)
  = if existsb (String.eqb k) ks then Some (f k) else None.
Proof.
  induction ks as [|k0 ks IH]; simpl; [reflexivity|].
  destruct (String.eqb_spec k k0) as [->|Hne]; simpl; [reflexivity | exact IH].
Qed.

Lemma dict_get_keys (k : string) (d : dict A) :
  existsb (String.eqb k) (keys d)
  = match dict_get k d with Some _ => true | None => false end.
Proof.
  induction d as [|[k0 v0] d IH]; simpl; [reflexivity|].
  destruct (String.eqb k k0); simpl; [reflexivity | exact IH].
Qed.
End DictFacts.

(** ** The columns of [pd.DataFrame(records)] *)

Lemma existsb_add_key (k k' : string) (seen : list string) :
  existsb (String.eqb k) (add_key seen k')
  = existsb (String.eqb k) seen || String.eqb k k'.
Proof.
  unfold add_key. destruct (existsb (String.eqb k') seen) eqn:E.
  - destruct (String.eqb_spec k k') as [->|_].
    + rewrite E. reflexivity.
    + rewrite orb_false_r. reflexivity.
  - rewrite existsb_app. simpl. rewrite orb_false_r. reflexivity.
Qed.

Lemma existsb_fold_add_key (k : string) (ks seen : list string) :
  existsb (String.eqb k) (fold_left add_key ks seen)
  = existsb (String.eqb k) seen || existsb (String.eqb k) ks.
Proof.
  revert seen. induction ks as [|k0 ks IH]; intros seen; simpl.
  - rewrite orb_false_r. reflexivity.
  - rewrite IH, existsb_add_key, orb_assoc. reflexivity.
Qed.

Lemma existsb_column_names_from (k : string) (rs : list record) (seen : list string) :
  existsb (String.eqb k)
    (fold_left (fun seen r => fold_left add_key (keys r) seen) rs seen)
  = existsb (String.eqb k) seen || has_key k rs.
Proof.
  revert seen. induction rs as [|r rs IH]; intros seen; simpl.
  - rewrite orb_false_r. reflexivity.
  - rewrite IH, existsb_fold_add_key, orb_assoc. reflexivity.
Qed.

Lemma existsb_column_names (k : string) (rs : list record) :
  existsb (String.eqb k) (column_names rs) = has_key k rs.
Proof. unfold column_names. now rewrite existsb_column_names_from. Qed.

Lemma getitem_frame (rs : list record) (k : string) :
  getitem (frame rs) k
  = if has_key k rs then Ok (maybe_convert_objects (dicts_to_array rs k))
    else Raise (KeyError k).
Proof.
  unfold getitem, frame; simpl.
  rewrite (dict_get_tabulate (fun k => maybe_convert_objects (dicts_to_array rs k))).
  rewrite existsb_column_names. destruct (has_key k rs); reflexivity.
Qed.

Lemma getitem_setitem (df : DataFrame) (k k' : string) (s : Series) :
  getitem (setitem df k' s) k = if String.eqb k k' then Ok s else getitem df k.
Proof.
  unfold getitem, setitem; simpl. rewrite dict_get_set.
  destruct (String.eqb k k'); reflexivity.
Qed.

Lemma has_str_has_key (k : string) (rs : list record) :
  has_str k rs = true -> has_key k rs = true.
Proof.
  unfold has_str, has_key. rewrite !existsb_exists.
  intros [r [Hin Hr]]. exists r. split; [exact Hin|].
  rewrite dict_get_keys. destruct (dict_get k r); [reflexivity | discriminate].
Qed.

Lemma has_str_is_str (k : string) (rs : list record) :
  existsb is_str (dicts_to_array rs k) = has_str k rs.
Proof.
  unfold has_str, dicts_to_array.
  induction rs as [|r rs IH]; simpl; [reflexivity|].
  rewrite IH. destruct (dict_get k r) as [[| |]|]; reflexivity.
Qed.

(** ** [process_data] on records that have what it reads *)

Lemma numeric_lengths_series (cs : list cell) :
  numeric (lengths_series cs) = Ok (cells (lengths_series cs)).
Proof.
  unfold numeric, lengths_series.
  destruct (existsb is_int cs); [now destruct (existsb is_nan cs)|].
  destruct cs as [|c cs]; [reflexivity|]. cbn [dtype_of cells].
  replace (forallb isna (map (fun _ => CNone) (c :: cs))) with true; [reflexivity|].
  symmetry. apply forallb_forall. intros x Hx.
  apply in_map_iff in Hx. destruct Hx as [y [<- _]]. reflexivity.
Qed.

Lemma cells_lengths_series (cs : list cell) :
  existsb is_int cs = true -> cells (lengths_series cs) = cs.
Proof. intros H. unfold lengths_series. now rewrite H. Qed.

Lemma length_lengths_series (cs : list cell) :
  List.length (cells (lengths_series cs)) = List.length cs.
Proof.
  unfold lengths_series. destruct (existsb is_int cs); [reflexivity|].
  destruct cs; [reflexivity|]. cbn [cells]. apply length_map.
Qed.

Lemma has_str_title_length (rs : list record) :
  existsb is_int (map title_length_cell rs) = has_str "title" rs.
Proof.
  unfold has_str, title_length_cell.
  induction rs as [|r rs IH]; simpl; [reflexivity|].
  rewrite IH. destruct (dict_get "title" r) as [[| |]|]; reflexivity.
Qed.

Lemma has_str_word_count (rs : list record) :
  existsb is_int (map word_count_cell rs) = has_str "body" rs.
Proof.
  unfold has_str, word_count_cell.
  induction rs as [|r rs IH]; simpl; [reflexivity|].
  rewrite IH. destruct (dict_get "body" r) as [[| |]|]; reflexivity.
Qed.

Lemma str_accessor_column (rs : list record) (k : string) :
  has_str k rs = true ->
  str_accessor (maybe_convert_objects (dicts_to_array rs k))
  = Ok (dicts_to_array rs k).
Proof.
  intros H. unfold maybe_convert_objects. now rewrite has_str_is_str, H.
Qed.

Lemma getitem_derived_raw (now : string) (rs : list record) (k : string) :
  String.eqb k "processed_at" = false ->
  String.eqb k "title_length" = false ->
  String.eqb k "body_word_count" = false ->
  getitem (derived now rs) k = getitem (frame rs) k.
Proof.
  intros H1 H2 H3. unfold derived, setitem_scalar.
  now rewrite !getitem_setitem, H1, H2, H3.
Qed.

Lemma user_stats_derived (now : string) (rs : list record) :
  has_key "id" rs = true -> has_key "userId" rs = true ->
  exists stats, user_stats (derived now rs) = Ok stats.
Proof.
  intros Hid Hu. unfold user_stats.
  rewrite !getitem_derived_raw by reflexivity.
  rewrite !getitem_frame, Hid, Hu. simpl bind.
  unfold derived. rewrite !getitem_setitem. simpl bind.
  rewrite !numeric_lengths_series. simpl bind. eexists. reflexivity.
Qed.

Lemma process_data_derived (now : string) (rs : list record) :
  has_str "title" rs = true -> has_str "body" rs = true ->
  has_key "id" rs = true -> has_key "userId" rs = true ->
  process_data now (DList rs) = Ok (derived now rs).
Proof.
  intros Ht Hb Hid Hu.
  destruct (user_stats_derived now rs Hid Hu) as [stats Hstats].
  unfold process_data, pd_DataFrame. cbn [bind].
  unfold setitem_scalar.
  rewrite getitem_setitem. cbn [String.eqb Ascii.eqb Bool.eqb].
  rewrite getitem_frame, (has_str_has_key _ _ Ht). cbn [bind].
  unfold str_len. rewrite (str_accessor_column _ _ Ht). cbn [bind].
  rewrite !getitem_setitem. cbn [String.eqb Ascii.eqb Bool.eqb].
  rewrite getitem_frame, (has_str_has_key _ _ Hb). cbn [bind].
  unfold str_split. rewrite (str_accessor_column _ _ Hb). cbn [bind].
  unfold list_len, dicts_to_array. rewrite !map_map.
  match goal with
  | |- bind (user_stats ?df) _ = _ =>
      replace df with (derived now rs); [rewrite Hstats; reflexivity|]
  end.
  unfold derived, setitem_scalar, title_length_cell, word_count_cell.
  f_equal; [f_equal|]; f_equal; apply map_ext; intros r;
    destruct (dict_get _ r) as [[| |]|]; reflexivity.
Qed.

(** ** The derived fields (C1) *)

Lemma split_from_length (cur s : string) :
  List.length (split_from cur s)
  = if is_empty cur then token_starts true s else S (token_starts false s).
Proof.
  revert cur. induction s as [|c s IH]; intros cur; simpl.
  - destruct (is_empty cur); reflexivity.
  - destruct (isspace c) eqn:Hc; simpl.
    + destruct (is_empty cur); simpl; rewrite IH; reflexivity.
    + rewrite IH. replace (is_empty (cur ++ String c "")) with false
        by (destruct cur; reflexivity).
      destruct (is_empty cur); reflexivity.
Qed.

Lemma split_length (s : string) :
  Z.of_nat (List.length (split s)) = whitespace_token_count s.
Proof. unfold split, whitespace_token_count. now rewrite split_from_length. Qed.

Lemma nth_error_lengths_series (f : record -> cell) (rs : list record) (i : nat) (r : record) :
  existsb is_int (map f rs) = true ->
  nth_error rs i = Some r ->
  nth_error (cells (lengths_series (map f rs))) i = Some (f r).
Proof. intros Hf H. rewrite (cells_lengths_series _ Hf). now apply map_nth_error. Qed.

(** C1, as the code has it: in a batch that [process_data] accepts, the
    title_length of a record is the character count of its title and its
    body_word_count the number of whitespace-delimited tokens of its body
    when these are strings; a title or body that is null or absent gives
    the missing value NaN. *)
Theorem derived_fields_of_record (now : string) (rs : list record)
    (Htitle : has_str "title" rs = true) (Hbody : has_str "body" rs = true)
    (Hid : has_key "id" rs = true) (Huser : has_key "userId" rs = true) :
  exists df tl wc,
    process_data now (DList rs) = Ok df
    /\ getitem df "title_length" = Ok tl
    /\ getitem df "body_word_count" = Ok wc
    /\ forall i r, nth_error rs i = Some r ->
         (forall s, dict_get "title" r = Some (VStr s) ->
                    nth_error (cells tl) i = Some (CInt (character_count s)))
         /\ (dict_get "title" r = Some VNone \/ dict_get "title" r = None ->
             nth_error (cells tl) i = Some CNaN)
         /\ (forall s, dict_get "body" r = Some (VStr s) ->
                       nth_error (cells wc) i = Some (CInt (whitespace_token_count s)))
         /\ (dict_get "body" r = Some VNone \/ dict_get "body" r = None ->
             nth_error (cells wc) i = Some CNaN).
Proof.
  exists (derived now rs), (lengths_series (map title_length_cell rs)),
         (lengths_series (map word_count_cell rs)).
  split; [now apply process_data_derived|].
  split; [unfold derived; now rewrite !getitem_setitem|].
  split; [unfold derived; now rewrite !getitem_setitem|].
  intros i r Hi.
  rewrite (nth_error_lengths_series title_length_cell rs i r) by
    (rewrite ?has_str_title_length; assumption).
  rewrite (nth_error_lengths_series word_count_cell rs i r) by
    (rewrite ?has_str_word_count; assumption).
  unfold title_length_cell, word_count_cell.
  repeat split.
  - intros s ->. reflexivity.
  - intros [-> | ->]; reflexivity.
  - intros s ->. now rewrite split_length.
  - intros [-> | ->]; reflexivity.
Qed.

Lemma derived_fields_of_record_witness :
  has_str "title" null_title_batch = true
  /\ exists df tl wc,
       process_data "2024-01-01T00:00:00+00:00" (DList null_title_batch) = Ok df
       /\ getitem df "title_length" = Ok tl
       /\ getitem df "body_word_count" = Ok wc
       /\ forall i r, nth_error null_title_batch i = Some r ->
            (forall s, dict_get "title" r = Some (VStr s) ->
                       nth_error (cells tl) i = Some (CInt (character_count s)))
            /\ (dict_get "title" r = Some VNone \/ dict_get "title" r = None ->
                nth_error (cells tl) i = Some CNaN)
            /\ (forall s, dict_get "body" r = Some (VStr s) ->
                          nth_error (cells wc) i = Some (CInt (whitespace_token_count s)))
            /\ (dict_get "body" r = Some VNone \/ dict_get "body" r = None ->
                nth_error (cells wc) i = Some CNaN).
Proof.
  split; [reflexivity|].
  apply (derived_fields_of_record "2024-01-01T00:00:00+00:00" null_title_batch);
    reflexivity.
Defined.

(** C1 as stated fails: a null title gives the title_length NaN, not 0,
    and a batch in which no record has a title makes the transform raise
    KeyError. *)
Lemma null_title_not_zero :
  (exists df tl,
     process_data "2024-01-01T00:00:00+00:00" (DList null_title_batch) = Ok df
     /\ getitem df "title_length" = Ok tl
     /\ nth_error (cells tl) 0 = Some CNaN
     /\ nth_error (cells tl) 0 <> Some (CInt 0))
  /\ process_data "2024-01-01T00:00:00+00:00" (DList no_title_batch)
     = Raise (KeyError "title").
Proof.
  split; [|reflexivity].
  eexists; eexists. split; [reflexivity|]. split; [reflexivity|].
  split; [reflexivity | discriminate].
Qed.

(** ** The data source (C6, C7) *)

Lemma fetch_request_fails (o : outcome) :
  request_fails o = true -> fetch_sample_data o = Ok (DList _generate_mock_data).
Proof.
  destruct o as [| |status b]; try reflexivity.
  unfold request_fails, fetch_sample_data, raise_for_status; cbn [requests_get bind fst].
  destruct ((400 <=? status) && (status <? 600)); [reflexivity|].
  destruct b; [reflexivity | discriminate].
Qed.

(** C6, as the code has it: [fetch_sample_data] returns a list of records
    whenever the retrieval fails with a RequestException (timeout,
    transport error, 4xx or 5xx status, body that is not JSON), and then
    the list is the fallback dataset, or the payload is a JSON array, and
    then the list is the first ten elements of the array, in their order
    (all of them when the array has fewer). *)
Theorem fetch_returns_records (o : outcome)
    (Ho : request_fails o || array_payload o = true) :
  exists l,
    fetch_sample_data o = Ok (DList l)
    /\ (List.length l <= 10)%nat
    /\ (request_fails o = true -> l = _generate_mock_data)
    /\ (forall status p,
          o = Response status (Json (JArr p)) -> request_fails o = false ->
          List.length l = Nat.min 10 (List.length p)
          /\ (forall i, (i < 10)%nat -> nth_error l i = nth_error p i)
          /\ (forall i, (10 <= i)%nat -> nth_error l i = None)).
Proof.
  destruct (request_fails o) eqn:Hf.
  - exists _generate_mock_data. split; [now apply fetch_request_fails|].
    split; [simpl; lia|]. split; [reflexivity | discriminate].
  - simpl in Ho. destruct o as [| |status [|[| | | |l|]]]; try discriminate.
    exists (firstn 10 l). simpl in Hf. rewrite orb_false_r in Hf.
    unfold fetch_sample_data, raise_for_status; cbn [requests_get bind fst].
    rewrite Hf. split; [reflexivity|]. split; [apply firstn_le_length|].
    split; [discriminate|].
    intros status' p [= _ <-] _. split; [apply length_firstn|]. split.
    + intros i Hi. rewrite nth_error_firstn.
      apply Nat.ltb_lt in Hi. now rewrite Hi.
    + intros i Hi. rewrite nth_error_firstn.
      apply Nat.ltb_ge in Hi. now rewrite Hi.
Qed.

Lemma fetch_returns_records_witness :
  request_fails (Response 200 (Json (JArr scenario)))
  || array_payload (Response 200 (Json (JArr scenario))) = true
  /\ exists l,
       fetch_sample_data (Response 200 (Json (JArr scenario))) = Ok (DList l)
       /\ List.length l = 3%nat
       /\ nth_error l 2 = nth_error scenario 2.
Proof.
  split; [reflexivity|].
  destruct (fetch_returns_records (Response 200 (Json (JArr scenario))) eq_refl)
    as [l [H1 [_ [_ H4]]]].
  destruct (H4 200 scenario eq_refl eq_refl) as [H5 [H6 _]].
  exists l. split; [exact H1|]. split; [exact H5|].
  apply H6. repeat constructor.
Defined.

(** C6 as stated fails: a 200 response whose payload is the JSON value
    null makes [fetch_sample_data] raise TypeError, so it does not return
    a list of records for every outcome of the retrieval. *)
Lemma fetch_fails_outward :
  fetch_sample_data (Response 200 (Json JNull)) = Raise TypeError
  /\ ~ (forall o, exists l, fetch_sample_data o = Ok (DList l)).
Proof.
  split; [reflexivity|].
  intros H. destruct (H (Response 200 (Json JNull))) as [l Hl]. discriminate.
Qed.

(** C7, as the code has it: when the retrieval fails with a
    RequestException (timeout, transport error, 4xx or 5xx status, body
    that is not JSON), the records are those of the fallback generator:
    exactly 10, with id 1..10 in sequence and userId 1,2,3,1,2,3,1,2,3,1,
    that is (i mod 3) + 1 for the i-th. *)
Theorem fallback_dataset (o : outcome) (Hfail : request_fails o = true) :
  fetch_sample_data o = Ok (DList _generate_mock_data)
  /\ List.length _generate_mock_data = 10%nat
  /\ map (int_field "id") _generate_mock_data
     = map Some [1; 2; 3; 4; 5; 6; 7; 8; 9; 10]
  /\ map (int_field "userId") _generate_mock_data
     = map Some [1; 2; 3; 1; 2; 3; 1; 2; 3; 1]
  /\ forall i r, nth_error _generate_mock_data i = Some r ->
       int_field "id" r = Some (Z.of_nat i + 1)
       /\ int_field "userId" r = Some (Z.of_nat i mod 3 + 1).
Proof.
  split; [now apply fetch_request_fails|].
  split; [reflexivity|]. split; [reflexivity|]. split; [reflexivity|].
  intros i r Hi.
  do 10 (destruct i as [|i];
         [injection Hi as <-; split; reflexivity|]).
  destruct i; discriminate.
Qed.

Lemma fallback_dataset_witness :
  request_fails (Response 503 NotJson) = true
  /\ fetch_sample_data (Response 503 NotJson) = Ok (DList _generate_mock_data)
  /\ List.length _generate_mock_data = 10%nat.
Proof.
  split; [reflexivity|].
  destruct (fallback_dataset (Response 503 NotJson) eq_refl) as [H1 [H2 _]].
  split; assumption.
Defined.

(** C7 as stated fails: not every failure of the data source produces
    the fallback records.  A reply with status 200 that reports an error
    as a JSON object is a malformed payload, no list of records; the
    generator is not called, the exception of the slice leaves
    [fetch_sample_data], and the run ends with exit code 1 and without
    output. *)
Lemma malformed_payload_gets_no_fallback :
  not_an_array error_object = true
  /\ request_fails error_object = false
  /\ fetch_sample_data error_object = Raise (KeyError "slice(None, 10, None)")
  /\ (forall l, fetch_sample_data error_object <> Ok (DList l))
  /\ ~ (forall o, request_fails o || not_an_array o = true ->
                  fetch_sample_data o = Ok (DList _generate_mock_data))
  /\ forall self t_process t_analysis fs,
       run self t_process t_analysis error_object fs = (1, fs).
Proof.
  split; [reflexivity|]. split; [reflexivity|]. split; [reflexivity|].
  split; [discriminate|]. split; [|reflexivity].
  intros H. specialize (H error_object eq_refl). discriminate.
Qed.

(** ** The empty dataset (C10) *)

(** C10: on the empty list [process_data] raises (KeyError: the frame of
    an empty list has no title column); in [run] the exception reaches
    the handler, no file is written and the exit code is 1. *)
Theorem empty_dataset_exit_code (self : DataProcessor) (t_process t_analysis : string)
    (o : outcome) (fs : filesystem)
    (Hempty : fetch_sample_data o = Ok (DList [])) :
  process_data t_process (DList []) = Raise (KeyError "title")
  /\ run self t_process t_analysis o fs = (1, fs).
Proof.
  split; [reflexivity|]. unfold run. rewrite Hempty. reflexivity.
Qed.

Lemma empty_dataset_exit_code_witness :
  fetch_sample_data (Response 200 (Json (JArr []))) = Ok (DList [])
  /\ run an_instance "t1" "t2" (Response 200 (Json (JArr []))) [] = (1, []).
Proof.
  split; [reflexivity|].
  apply (empty_dataset_exit_code an_instance "t1" "t2"
           (Response 200 (Json (JArr []))) [] eq_refl).
Defined.

(** ** Group keys *)

Lemma key_eqb_spec (a b : pykey) : reflect (a = b) (key_eqb a b).
Proof.
  destruct a as [x|x|x], b as [y|y|y]; simpl; try (constructor; discriminate).
  - destruct (Z.eqb_spec x y); constructor; congruence.
  - destruct (Z.eqb_spec x y); constructor; congruence.
  - destruct (String.eqb_spec x y); constructor; congruence.
Qed.

Lemma unique_In (k : pykey) (ks : list pykey) : In k (unique ks) <-> In k ks.
Proof.
  induction ks as [|k0 ks IH]; simpl; [tauto|].
  rewrite filter_In, IH.
  destruct (key_eqb_spec k0 k) as [->|Hne]; simpl; [tauto|].
  intuition congruence.
Qed.

Lemma unique_NoDup (ks : list pykey) : NoDup (unique ks).
Proof.
  induction ks as [|k0 ks IH]; simpl; constructor.
  - rewrite filter_In. intros [_ H].
    destruct (key_eqb_spec k0 k0); [discriminate | congruence].
  - now apply NoDup_filter.
Qed.

Lemma insert_sorted_perm (k : pykey) (ks : list pykey) :
  Permutation (insert_sorted k ks) (k :: ks).
Proof.
  induction ks as [|k0 ks IH]; simpl; [reflexivity|].
  destruct (key_leb k k0); [reflexivity|].
  rewrite IH. apply perm_swap.
Qed.

Lemma sort_keys_perm (ks : list pykey) : Permutation (sort_keys ks) ks.
Proof.
  induction ks as [|k ks IH]; simpl; [reflexivity|].
  rewrite insert_sorted_perm. now constructor.
Qed.

Lemma group_keys_In (by_ : Series) (k : pykey) :
  In k (group_keys by_) <-> In (Some k) (row_keys by_).
Proof.
  unfold group_keys.
  rewrite (Permutation_in' (eq_refl k) (sort_keys_perm _)), unique_In, in_flat_map.
  split.
  - intros [[k'|] [Hin Hk]]; simpl in Hk; [|contradiction].
    destruct Hk as [->|[]]. exact Hin.
  - intros Hin. exists (Some k). split; [exact Hin | now left].
Qed.

Lemma group_keys_NoDup (by_ : Series) : NoDup (group_keys by_).
Proof.
  unfold group_keys.
  apply (Permutation_NoDup (Permutation_sym (sort_keys_perm _))), unique_NoDup.
Qed.

(** ** The sizes of the groups add up *)

Lemma zsum_map_add {A : Type} (f g : A -> Z) (l : list A) :
  zsum (map (fun a => f a + g a) l) = zsum (map f l) + zsum (map g l).
Proof. induction l as [|a l IH]; simpl; [reflexivity | rewrite IH; lia]. Qed.

Lemma zsum_indicator (k0 : pykey) (ks : list pykey) :
  NoDup ks -> In k0 ks ->
  zsum (map (fun k => if key_eqb k k0 then 1 else 0) ks) = 1.
Proof.
  induction 1 as [|k ks Hnotin Hnd IH]; intros Hin; [contradiction|].
  simpl. destruct (key_eqb_spec k k0) as [->|Hne].
  - assert (E : zsum (map (fun k => if key_eqb k k0 then 1 else 0) ks) = 0).
    { clear IH Hin Hnd. induction ks as [|k ks IH]; simpl; [reflexivity|].
      destruct (key_eqb_spec k k0) as [->|_]; [exfalso; apply Hnotin; now left|].
      rewrite IH; [reflexivity|]. intros H. apply Hnotin. now right. }
    rewrite E. reflexivity.
  - destruct Hin as [E|Hin]; [congruence|]. now rewrite IH.
Qed.

Lemma group_sizes_add_up (ks : list pykey) (rk : list (option pykey)) :
  NoDup ks ->
  (forall o, In o rk -> exists k, o = Some k /\ In k ks) ->
  zsum (map (fun k => Z.of_nat (List.length (filter (in_group k) rk))) ks)
  = Z.of_nat (List.length rk).
Proof.
  intros Hnd. induction rk as [|o rk IH]; intros Hall.
  - clear. induction ks as [|k ks IH]; simpl; [reflexivity | exact IH].
  - destruct (Hall o (or_introl eq_refl)) as [k0 [-> Hk0]].
    rewrite (map_ext _ (fun k => (if key_eqb k k0 then 1 else 0)
                                 + Z.of_nat (List.length (filter (in_group k) rk)))).
    + rewrite zsum_map_add, zsum_indicator by assumption.
      rewrite IH by (intros o Ho; apply Hall; now right).
      simpl List.length. lia.
    + intros k. simpl. destruct (key_eqb k k0); simpl List.length; lia.
Qed.

Lemma group_cells_filter (by_ : Series) (k : pykey) (cs : list cell) :
  List.length cs = List.length (cells by_) ->
  List.length (group_cells by_ k cs)
  = List.length (filter (in_group k) (row_keys by_)).
Proof.
  unfold group_cells, row_keys. rewrite length_map.
  generalize (cells by_) as bs. intros bs. revert cs.
  induction bs as [|b bs IH]; intros [|c cs] Hlen; simpl in *; try reflexivity;
    try discriminate.
  destruct (in_group k (key_of (dtype_of by_) b)); simpl; rewrite IH; auto.
Qed.

(** ** Frames of derived records *)

Lemma numbers_map_CInt (l : list Z) : numbers (map CInt l) = l.
Proof. induction l as [|z l IH]; simpl; [reflexivity | now rewrite IH]. Qed.

Lemma forallb_is_int_numbers (cs : list cell) :
  forallb is_int cs = true -> cs = map CInt (numbers cs).
Proof.
  induction cs as [|c cs IH]; simpl; [reflexivity|].
  destruct c; simpl; try discriminate. intros H. now rewrite <- IH.
Qed.

Lemma int_column_at_getitem (df : DataFrame) (k : string) :
  int_column_at df k = true ->
  getitem df k = Ok (mkSeries Int64 (map CInt (column_ints df k)))
  /\ List.length (column_ints df k) = nrows df.
Proof.
  unfold int_column_at, column_ints, int_column.
  destruct (getitem df k) as [[d cs]|]; [|discriminate]. simpl.
  destruct d; try discriminate.
  intros H. apply andb_true_iff in H. destruct H as [Hint Hlen].
  apply Nat.eqb_eq in Hlen. pose proof (forallb_is_int_numbers cs Hint) as E.
  split; [now rewrite <- E|].
  rewrite E in Hlen. now rewrite length_map in Hlen.
Qed.

Lemma row_keys_ints (us : list Z) :
  row_keys (mkSeries Int64 (map CInt us)) = map (fun g => Some (KInt g)) us.
Proof. unfold row_keys; simpl. now rewrite map_map. Qed.

Lemma group_cells_ints (us xs : list Z) (g : Z) :
  group_cells (mkSeries Int64 (map CInt us)) (KInt g) (map CInt xs)
  = map CInt (group_values g us xs).
Proof.
  unfold group_cells, group_values. rewrite row_keys_ints.
  revert xs. induction us as [|u us IH]; intros [|x xs]; simpl; try reflexivity.
  rewrite (Z.eqb_sym g u). destruct (u =? g); simpl; now rewrite IH.
Qed.

Lemma count_ints (l : list Z) : count (map CInt l) = Z.of_nat (List.length l).
Proof.
  unfold count. f_equal. induction l as [|z l IH]; simpl; [reflexivity | now rewrite IH].
Qed.

Lemma sum_ints (l : list Z) : sum (map CInt l) = zsum l.
Proof. unfold sum. now rewrite numbers_map_CInt. Qed.

Lemma group_keys_ints (us : list Z) (k : pykey) :
  In k (group_keys (mkSeries Int64 (map CInt us)))
  <-> exists g, k = KInt g /\ In g us.
Proof.
  rewrite group_keys_In, row_keys_ints, in_map_iff. split.
  - intros [g [E Hg]]. exists g. split; [congruence | exact Hg].
  - intros [g [-> Hg]]. exists g. split; [reflexivity | exact Hg].
Qed.

(** What [user_stats] returns on a frame of derived records. *)
Lemma user_stats_derived_frame (df : DataFrame) :
  derived_frame df = true ->
  let by_ := mkSeries Int64 (map CInt (column_ints df "userId")) in
  let id := mkSeries Int64 (map CInt (column_ints df "id")) in
  let tl := mkSeries Int64 (map CInt (column_ints df "title_length")) in
  let wc := mkSeries Int64 (map CInt (column_ints df "body_word_count")) in
  user_stats df = Ok (map (fun k => (k, agg by_ id tl wc k)) (group_keys by_))
  /\ List.length (column_ints df "userId") = nrows df
  /\ List.length (column_ints df "id") = nrows df
  /\ List.length (column_ints df "title_length") = nrows df
  /\ List.length (column_ints df "body_word_count") = nrows df.
Proof.
  unfold derived_frame. rewrite !andb_true_iff. intros [[[Hid Hu] Htl] Hwc].
  destruct (int_column_at_getitem df _ Hid) as [Gid Lid].
  destruct (int_column_at_getitem df _ Hu) as [Gu Lu].
  destruct (int_column_at_getitem df _ Htl) as [Gtl Ltl].
  destruct (int_column_at_getitem df _ Hwc) as [Gwc Lwc].
  cbv zeta. unfold user_stats. rewrite Gid, Gu, Gtl, Gwc. cbn [bind numeric dtype_of].
  repeat split; assumption.
Qed.

(** ** The aggregation is a partition (C2) *)

(** C2: on every frame of derived records the per-user counts add up to
    the number of records, and the keys of the statistics are exactly the
    userId values of the records, each once. *)
Theorem aggregation_is_partition (df : DataFrame)
    (Hdf : derived_frame df = true) :
  exists stats,
    user_stats df = Ok stats
    /\ zsum (map (fun kr => agg_id (snd kr)) stats) = Z.of_nat (nrows df)
    /\ NoDup (map fst stats)
    /\ forall k, In k (map fst stats)
                 <-> exists g, k = KInt g /\ In g (column_ints df "userId").
Proof.
  destruct (user_stats_derived_frame df Hdf) as [Hstats [Lu [Lid _]]].
  eexists. split; [exact Hstats|].
  rewrite !map_map; cbn [fst snd]. rewrite map_id.
  split; [|split; [apply group_keys_NoDup | apply group_keys_ints]].
  unfold agg; cbn [agg_id cells].
  rewrite (map_ext_in _ (fun k => Z.of_nat (List.length
            (filter (in_group k)
               (row_keys (mkSeries Int64 (map CInt (column_ints df "userId")))))))).
  - rewrite group_sizes_add_up.
    + unfold row_keys; cbn [cells]. now rewrite !length_map, Lu.
    + apply group_keys_NoDup.
    + intros o Ho. rewrite row_keys_ints in Ho. apply in_map_iff in Ho.
      destruct Ho as [g [<- Hg]]. exists (KInt g). split; [reflexivity|].
      apply group_keys_ints. now exists g.
  - intros k Hk. apply group_keys_ints in Hk. destruct Hk as [g [-> _]].
    rewrite group_cells_ints, count_ints, <- (length_map CInt), <- group_cells_ints.
    f_equal. apply group_cells_filter. cbn [cells]. rewrite !length_map. congruence.
Qed.

Lemma aggregation_is_partition_witness :
  derived_frame (derived "2024-01-01T00:00:00+00:00" scenario) = true
  /\ exists stats,
       user_stats (derived "2024-01-01T00:00:00+00:00" scenario) = Ok stats
       /\ zsum (map (fun kr => agg_id (snd kr)) stats) = 3
       /\ NoDup (map fst stats)
       /\ forall k, In k (map fst stats)
                    <-> exists g, k = KInt g /\ In g [1; 1; 2].
Proof.
  split; [reflexivity|].
  apply (aggregation_is_partition (derived "2024-01-01T00:00:00+00:00" scenario)).
  reflexivity.
Defined.

(** ** Well-formed batches *)

Lemma wf_record_fields (r : record) :
  wf_record r = true ->
  exists i t b u,
    dict_get "id" r = Some (VInt i) /\ dict_get "title" r = Some (VStr t)
    /\ dict_get "body" r = Some (VStr b) /\ dict_get "userId" r = Some (VInt u).
Proof.
  unfold wf_record, int_field.
  destruct (dict_get "id" r) as [[|i|]|]; try discriminate.
  destruct (dict_get "title" r) as [[| |t]|]; try discriminate.
  destruct (dict_get "body" r) as [[| |b]|]; try discriminate.
  destruct (dict_get "userId" r) as [[|u|]|]; try discriminate.
  intros _. now exists i, t, b, u.
Qed.

Lemma wf_has_str (rs : list record) :
  rs <> [] -> forallb wf_record rs = true ->
  has_str "title" rs = true /\ has_str "body" rs = true
  /\ has_key "id" rs = true /\ has_key "userId" rs = true.
Proof.
  destruct rs as [|r rs]; [congruence|]. intros _ H. simpl in H.
  apply andb_true_iff in H. destruct H as [Hr _].
  destruct (wf_record_fields r Hr) as [i [t [b [u [Hi [Ht [Hb Hu]]]]]]].
  unfold has_str, has_key. cbn [existsb]. rewrite !dict_get_keys, Hi, Ht, Hb, Hu.
  repeat split; reflexivity.
Qed.

Lemma all_int_convert (cs : list cell) :
  cs <> [] -> forallb is_int cs = true ->
  maybe_convert_objects cs = mkSeries Int64 cs.
Proof.
  intros Hne H. unfold maybe_convert_objects.
  assert (Hs : existsb is_str cs = false).
  { induction cs as [|c cs IH]; [reflexivity|]. simpl in *.
    destruct c; try discriminate. simpl.
    destruct cs; [reflexivity|]. apply IH; [discriminate | exact H]. }
  assert (Hn : existsb isna cs = false).
  { clear Hs. induction cs as [|c cs IH]; [reflexivity|]. simpl in *.
    destruct c; try discriminate. simpl.
    destruct cs; [reflexivity|]. apply IH; [discriminate | exact H]. }
  assert (Hi : existsb is_int cs = true).
  { destruct cs as [|c cs]; [congruence|]. simpl in *.
    destruct c; try discriminate. reflexivity. }
  now rewrite Hs, Hi, Hn.
Qed.

Lemma wf_int_field_cells (k : string) (rs : list record) :
  (forall r, In r rs -> exists z, dict_get k r = Some (VInt z)) ->
  forallb is_int (dicts_to_array rs k) = true.
Proof.
  intros H. unfold dicts_to_array. apply forallb_forall. intros c Hc.
  apply in_map_iff in Hc. destruct Hc as [r [<- Hr]].
  destruct (H r Hr) as [z ->]. reflexivity.
Qed.

Lemma wf_lengths_int (f : record -> cell) (rs : list record) :
  (forall r, In r rs -> exists z, f r = CInt z) ->
  lengths_series (map f rs) = mkSeries Int64 (map f rs)
  /\ forallb is_int (map f rs) = true.
Proof.
  intros H.
  assert (Hint : forallb is_int (map f rs) = true).
  { apply forallb_forall. intros c Hc. apply in_map_iff in Hc.
    destruct Hc as [r [<- Hr]]. destruct (H r Hr) as [z ->]. reflexivity. }
  split; [|exact Hint].
  assert (Hnan : existsb is_nan (map f rs) = false).
  { apply not_true_is_false. intros E. apply existsb_exists in E.
    destruct E as [c [Hc Hnan]]. rewrite forallb_forall in Hint.
    specialize (Hint c Hc). destruct c; discriminate. }
  unfold lengths_series. destruct (map f rs) as [|c cs]; [reflexivity|].
  rewrite Hnan. cbn [forallb] in Hint. apply andb_prop in Hint as [Hc _].
  cbn [existsb]. now rewrite Hc.
Qed.

(** On a batch of well-formed records that is not empty, [process_data]
    returns a frame of derived records. *)
Lemma process_data_wf (now : string) (rs : list record) :
  rs <> [] -> forallb wf_record rs = true ->
  process_data now (DList rs) = Ok (derived now rs)
  /\ derived_frame (derived now rs) = true.
Proof.
  intros Hne Hwf.
  destruct (wf_has_str rs Hne Hwf) as [Ht [Hb [Hid Hu]]].
  split; [now apply process_data_derived|].
  assert (Hall : forall r, In r rs -> wf_record r = true)
    by (now apply forallb_forall).
  assert (Hlen : forall k, dicts_to_array rs k <> []).
  { intros k E. apply (f_equal (@List.length cell)) in E.
    unfold dicts_to_array in E. rewrite length_map in E.
    destruct rs; [congruence | discriminate]. }
  unfold derived_frame, int_column_at.
  rewrite !getitem_derived_raw by reflexivity.
  rewrite !getitem_frame, Hid, Hu.
  unfold derived, setitem_scalar. rewrite !getitem_setitem.
  cbn [String.eqb Ascii.eqb Bool.eqb nrows setitem frame].
  rewrite !all_int_convert; try apply Hlen.
  - destruct (wf_lengths_int title_length_cell rs) as [-> Htl].
    { intros r Hr. destruct (wf_record_fields r (Hall r Hr)) as [i [t [b [u [_ [Ht' _]]]]]].
      unfold title_length_cell. rewrite Ht'. eauto. }
    destruct (wf_lengths_int word_count_cell rs) as [-> Hwc].
    { intros r Hr. destruct (wf_record_fields r (Hall r Hr)) as [i [t [b [u [_ [_ [Hb' _]]]]]]].
      unfold word_count_cell. rewrite Hb'. eauto. }
    unfold int_column; cbn [dtype_of cells].
    rewrite Htl, Hwc.
    rewrite !(wf_int_field_cells _ rs).
    + unfold dicts_to_array. rewrite !length_map, !Nat.eqb_refl. reflexivity.
    + intros r Hr. destruct (wf_record_fields r (Hall r Hr)) as [i [t [b [u [_ [_ [_ Hu']]]]]]].
      eauto.
    + intros r Hr. destruct (wf_record_fields r (Hall r Hr)) as [i [t [b [u [Hi' _]]]]].
      eauto.
  - apply wf_int_field_cells. intros r Hr.
    destruct (wf_record_fields r (Hall r Hr)) as [i [t [b [u [_ [_ [_ Hu']]]]]]]. eauto.
  - apply wf_int_field_cells. intros r Hr.
    destruct (wf_record_fields r (Hall r Hr)) as [i [t [b [u [Hi' _]]]]]. eauto.
Qed.

(** ** The transform is an order-preserving map (C3) *)

Lemma maybe_convert_objects_cells (cs : list cell) :
  cells (maybe_convert_objects cs) = cs
  \/ cells (maybe_convert_objects cs) = map none_to_nan cs.
Proof.
  unfold maybe_convert_objects.
  destruct (existsb is_str cs); [now left|].
  destruct (existsb is_int cs).
  - destruct (existsb isna cs); [now right | now left].
  - destruct (existsb is_nan cs); [now right | now left].
Qed.

Lemma maybe_convert_objects_length (cs : list cell) :
  List.length (cells (maybe_convert_objects cs)) = List.length cs.
Proof.
  destruct (maybe_convert_objects_cells cs) as [-> | ->];
    [reflexivity | apply length_map].
Qed.

Lemma maybe_convert_objects_nth (cs : list cell) (i : nat) (c : cell) :
  nth_error cs i = Some c ->
  exists c', nth_error (cells (maybe_convert_objects cs)) i = Some c'
             /\ none_to_nan c' = none_to_nan c.
Proof.
  intros H. destruct (maybe_convert_objects_cells cs) as [-> | ->].
  - now exists c.
  - exists (none_to_nan c). split; [now apply map_nth_error|].
    now destruct c.
Qed.

Lemma derived_column_length (now : string) (rs : list record) (k : string) (s : Series) :
  getitem (derived now rs) k = Ok s -> List.length (cells s) = List.length rs.
Proof.
  unfold derived, setitem_scalar. rewrite !getitem_setitem, getitem_frame.
  destruct (String.eqb k "body_word_count");
    [intros [= <-]; rewrite length_lengths_series; apply length_map|].
  destruct (String.eqb k "title_length");
    [intros [= <-]; rewrite length_lengths_series; apply length_map|].
  destruct (String.eqb k "processed_at");
    [intros [= <-]; simpl; apply repeat_length|].
  destruct (has_key k rs); [|discriminate].
  intros [= <-]. rewrite maybe_convert_objects_length.
  unfold dicts_to_array. apply length_map.
Qed.

(** C3, as the code has it: on every batch of well-formed raw records
    that is not empty, [process_data] returns a frame with one row per
    record, in the order of the records: row i holds the fields of the
    i-th record and the fields derived from it. *)
Theorem transform_preserves_order (now : string) (rs : list record)
    (Hne : rs <> []) (Hwf : forallb wf_record rs = true) :
  exists df,
    process_data now (DList rs) = Ok df
    /\ nrows df = List.length rs
    /\ (forall k s, getitem df k = Ok s -> List.length (cells s) = List.length rs)
    /\ forall i r, nth_error rs i = Some r ->
         cell_at df "processed_at" i = Some (CStr now)
         /\ (forall t, dict_get "title" r = Some (VStr t) ->
               cell_at df "title_length" i = Some (CInt (character_count t)))
         /\ (forall b, dict_get "body" r = Some (VStr b) ->
               cell_at df "body_word_count" i = Some (CInt (whitespace_token_count b)))
         /\ (forall k v, dict_get k r = Some v ->
               k <> "processed_at" -> k <> "title_length" -> k <> "body_word_count" ->
               exists c, cell_at df k i = Some c
                         /\ none_to_nan c = none_to_nan (cell_of v)).
Proof.
  destruct (process_data_wf now rs Hne Hwf) as [Hpd _].
  destruct (wf_has_str rs Hne Hwf) as [Hst [Hsb _]].
  exists (derived now rs). split; [exact Hpd|]. split; [reflexivity|].
  split; [apply derived_column_length|].
  intros i r Hi. unfold cell_at.
  repeat split.
  - unfold derived, setitem_scalar. rewrite !getitem_setitem. simpl.
    apply nth_error_repeat. apply nth_error_Some. congruence.
  - intros t Ht. unfold derived. rewrite !getitem_setitem.
    cbn [String.eqb Ascii.eqb Bool.eqb].
    rewrite (nth_error_lengths_series title_length_cell rs i r) by
      (rewrite ?has_str_title_length; assumption).
    unfold title_length_cell. now rewrite Ht.
  - intros b Hb. unfold derived. rewrite !getitem_setitem.
    cbn [String.eqb Ascii.eqb Bool.eqb].
    rewrite (nth_error_lengths_series word_count_cell rs i r) by
      (rewrite ?has_str_word_count; assumption).
    unfold word_count_cell. rewrite Hb, split_length. reflexivity.
  - intros k v Hk H1 H2 H3.
    rewrite getitem_derived_raw by (now apply String.eqb_neq).
    rewrite getitem_frame.
    assert (Hhas : has_key k rs = true).
    { unfold has_key. apply existsb_exists. exists r.
      split; [now apply nth_error_In with i|]. now rewrite dict_get_keys, Hk. }
    rewrite Hhas. apply maybe_convert_objects_nth.
    unfold dicts_to_array. rewrite (map_nth_error _ i rs Hi). now rewrite Hk.
Qed.

Lemma transform_preserves_order_witness :
  scenario <> [] /\ forallb wf_record scenario = true
  /\ exists df,
       process_data "2024-01-01T00:00:00+00:00" (DList scenario) = Ok df
       /\ nrows df = 3%nat.
Proof.
  assert (Hne : scenario <> []) by discriminate.
  split; [exact Hne|]. split; [reflexivity|].
  destruct (transform_preserves_order "2024-01-01T00:00:00+00:00" scenario Hne eq_refl)
    as [df [H1 [H2 _]]].
  exists df. split; assumption.
Defined.

(** C3 as stated fails on the empty list: [process_data] raises KeyError
    there and returns no frame. *)
Lemma transform_fails_on_empty_list :
  process_data "2024-01-01T00:00:00+00:00" (DList []) = Raise (KeyError "title")
  /\ ~ (forall rs, exists df,
          process_data "2024-01-01T00:00:00+00:00" (DList rs) = Ok df
          /\ nrows df = List.length rs).
Proof.
  split; [reflexivity|].
  intros H. destruct (H []) as [df [Hdf _]]. discriminate.
Qed.

(** ** Means and their rounding *)

Lemma mean_ints (l : list Z) :
  l <> [] -> mean (map CInt l) = F (fl (arithmetic_mean l)).
Proof.
  intros Hne. unfold mean. rewrite numbers_map_CInt.
  destruct l as [|z l]; [congruence | reflexivity].
Qed.




(** ** The statistics of a group (C4) *)






(** ** The summary of the report (C5) *)

Lemma derived_frame_getitem (df : DataFrame) :
  derived_frame df = true ->
  getitem df "userId" = Ok (mkSeries Int64 (map CInt (column_ints df "userId")))
  /\ getitem df "title_length"
     = Ok (mkSeries Int64 (map CInt (column_ints df "title_length")))
  /\ getitem df "body_word_count"
     = Ok (mkSeries Int64 (map CInt (column_ints df "body_word_count")))
  /\ List.length (column_ints df "title_length") = nrows df.
Proof.
  unfold derived_frame. rewrite !andb_true_iff. intros [[[_ Hu] Htl] Hwc].
  destruct (int_column_at_getitem df _ Hu) as [Gu _].
  destruct (int_column_at_getitem df _ Htl) as [Gtl Ltl].
  destruct (int_column_at_getitem df _ Hwc) as [Gwc _].
  repeat split; assumption.
Qed.

Lemma fold_min_spec (z : Z) (l : list Z) :
  In (fold_right Z.min z l) (z :: l)
  /\ forall t, In t (z :: l) -> fold_right Z.min z l <= t.
Proof.
  induction l as [|y l [IHin IHle]]; simpl.
  - split; [now left|]. intros t [<-|[]]. lia.
  - split.
    + destruct (Z.min_spec y (fold_right Z.min z l)) as [[_ ->]|[_ ->]].
      * right. now left.
      * simpl in IHin. destruct IHin as [E|Hin]; [now left | right; now right].
    + intros t [<-|[<-|Ht]].
      * specialize (IHle z (or_introl eq_refl)). lia.
      * lia.
      * specialize (IHle t (or_intror Ht)). lia.
Qed.

Lemma fold_max_spec (z : Z) (l : list Z) :
  In (fold_right Z.max z l) (z :: l)
  /\ forall t, In t (z :: l) -> t <= fold_right Z.max z l.
Proof.
  induction l as [|y l [IHin IHle]]; simpl.
  - split; [now left|]. intros t [<-|[]]. lia.
  - split.
    + destruct (Z.max_spec y (fold_right Z.max z l)) as [[_ ->]|[_ ->]].
      * simpl in IHin. destruct IHin as [E|Hin]; [now left | right; now right].
      * right. now left.
    + intros t [<-|[<-|Ht]].
      * specialize (IHle z (or_introl eq_refl)). lia.
      * lia.
      * specialize (IHle t (or_intror Ht)). lia.
Qed.

Lemma min_ints (l : list Z) :
  l <> [] ->
  exists lo, min (map CInt l) = Some lo /\ In lo l /\ forall t, In t l -> lo <= t.
Proof.
  intros Hne. unfold min. rewrite numbers_map_CInt.
  destruct l as [|z l]; [congruence|].
  destruct (fold_min_spec z l) as [Hin Hle]. eauto.
Qed.

Lemma max_ints (l : list Z) :
  l <> [] ->
  exists hi, max (map CInt l) = Some hi /\ In hi l /\ forall t, In t l -> t <= hi.
Proof.
  intros Hne. unfold max. rewrite numbers_map_CInt.
  destruct l as [|z l]; [congruence|].
  destruct (fold_max_spec z l) as [Hin Hle]. eauto.
Qed.

(** The distinct values of a column are as many as the groups that it
    makes. *)
Lemma row_keys_notna (d : dtype) (cs : list cell) :
  flat_map (fun o : option pykey => match o with Some k => [k] | None => [] end)
           (map (key_of d) cs)
  = map (key_or_zero d) (filter notna cs).
Proof.
  induction cs as [|c cs IH]; [reflexivity|].
  destruct c; cbn [map flat_map filter notna isna negb key_of app];
    rewrite IH; reflexivity.
Qed.

Lemma key_or_zero_eqb (d : dtype) (a b : cell) :
  notna a = true -> notna b = true ->
  key_eqb (key_or_zero d a) (key_or_zero d b) = cell_eqb a b.
Proof. destruct a, b, d; try discriminate; reflexivity. Qed.

Lemma unique_cells_incl (c : cell) (cs : list cell) :
  In c (unique_cells cs) -> In c cs.
Proof.
  induction cs as [|c' cs IH]; simpl; [tauto|].
  intros [E | H]; [now left|]. apply filter_In in H. right. now apply IH.
Qed.

Lemma filter_map_comm {A B : Type} (f : A -> B) (p : B -> bool) (l : list A) :
  filter p (map f l) = map f (filter (fun x => p (f x)) l).
Proof.
  induction l as [|x l IH]; simpl; [reflexivity|].
  destruct (p (f x)); simpl; now rewrite IH.
Qed.

Lemma unique_map_key (d : dtype) (cs : list cell) :
  (forall c, In c cs -> notna c = true) ->
  unique (map (key_or_zero d) cs) = map (key_or_zero d) (unique_cells cs).
Proof.
  induction cs as [|c cs IH]; intros Hna; [reflexivity|].
  cbn [map unique unique_cells]. f_equal.
  rewrite IH by (intros c' Hc'; apply Hna; now right).
  rewrite filter_map_comm. f_equal. apply filter_ext_in. intros c' Hc'.
  rewrite key_or_zero_eqb; [reflexivity | apply Hna; now left |].
  apply Hna. right. now apply unique_cells_incl.
Qed.

Lemma nunique_group_keys (s : Series) :
  nunique s = Z.of_nat (List.length (group_keys s)).
Proof.
  unfold nunique, group_keys, row_keys. f_equal.
  rewrite (Permutation_length (sort_keys_perm _)).
  rewrite row_keys_notna, unique_map_key, length_map; [reflexivity|].
  intros c Hc. now apply filter_In in Hc.
Qed.

(** C5: the summary is computed from the records of the frame (title
    lengths that add up to 2^53 at most): total_records is their number,
    unique_users the number of distinct userId values, which is the
    number of groups of the breakdown, avg_title_length the mean of all
    title_length values at the full precision of a float64 (the float64
    nearest to the arithmetic mean, not rounded to 2 places),
    total_words the sum of all body_word_count values, min_title_length
    and max_title_length the least and the greatest title_length, so
    that every title_length lies between them. *)
Theorem summary_from_records (self : DataProcessor) (now : string) (df : DataFrame)
    (Hdf : derived_frame df = true) (Hrows : nrows df <> 0%nat)
    (Hsum : exact_sum (column_ints df "title_length") = true) :
  exists analysis summary breakdown q lo hi,
    perform_analysis self now df = Ok analysis
    /\ py_item (KStr "data_summary") analysis = Some summary
    /\ py_item (KStr "user_breakdown") analysis = Some (PDict breakdown)
    /\ py_item (KStr "total_records") summary = Some (PInt (Z.of_nat (nrows df)))
    /\ py_item (KStr "unique_users") summary
       = Some (PInt (Z.of_nat (List.length breakdown)))
    /\ py_item (KStr "avg_title_length") summary = Some (PFloat (F q))
    /\ nearest_float64 (arithmetic_mean (column_ints df "title_length")) q
    /\ py_item (KStr "total_words") summary
       = Some (PInt (zsum (column_ints df "body_word_count")))
    /\ py_item (KStr "min_title_length") summary = Some (PInt lo)
    /\ py_item (KStr "max_title_length") summary = Some (PInt hi)
    /\ In lo (column_ints df "title_length")
    /\ In hi (column_ints df "title_length")
    /\ forall t, In t (column_ints df "title_length") -> lo <= t <= hi.
Proof.
  destruct (user_stats_derived_frame df Hdf) as [Hstats _].
  destruct (derived_frame_getitem df Hdf) as [Gu [Gtl [Gwc Ltl]]].
  assert (Hne : column_ints df "title_length" <> []).
  { intros E. rewrite E in Ltl. simpl in Ltl. congruence. }
  destruct (min_ints _ Hne) as [lo [Hlo [Hlo_in Hlo_le]]].
  destruct (max_ints _ Hne) as [hi [Hhi [Hhi_in Hhi_le]]].
  unfold perform_analysis.
  rewrite Gu, Gtl, Gwc, Hstats. cbn [bind numeric dtype_of cells].
  rewrite (mean_ints _ Hne), Hlo, Hhi, sum_ints. cbn [bind int_of_opt].
  do 6 eexists.
  split; [reflexivity|]. split; [reflexivity|]. split; [reflexivity|].
  split; [reflexivity|].
  split; [rewrite nunique_group_keys, !length_map; reflexivity|].
  split; [reflexivity|]. split; [apply fl_nearest|].
  split; [reflexivity|]. split; [reflexivity|]. split; [reflexivity|].
  split; [exact Hlo_in|]. split; [exact Hhi_in|].
  intros t Ht. split; [now apply Hlo_le | now apply Hhi_le].
Qed.

Lemma summary_from_records_witness :
  derived_frame (derived "2024-01-01T00:00:00+00:00" scenario) = true
  /\ nrows (derived "2024-01-01T00:00:00+00:00" scenario) <> 0%nat
  /\ exact_sum (column_ints (derived "2024-01-01T00:00:00+00:00" scenario)
                            "title_length") = true
  /\ exists analysis,
       perform_analysis an_instance "2024-01-01T00:00:05+00:00"
         (derived "2024-01-01T00:00:00+00:00" scenario) = Ok analysis.
Proof.
  assert (Hrows : nrows (derived "2024-01-01T00:00:00+00:00" scenario) <> 0%nat)
    by discriminate.
  split; [reflexivity|]. split; [exact Hrows|]. split; [reflexivity|].
  destruct (summary_from_records an_instance "2024-01-01T00:00:05+00:00"
              (derived "2024-01-01T00:00:00+00:00" scenario) eq_refl Hrows eq_refl)
    as [analysis [summary [breakdown [q [lo [hi [H _]]]]]]].
  exists analysis. exact H.
Defined.

(** ** The JSON round trip (C8) *)

Lemma str_of_Z_inj (a b : Z) : str_of_Z a = str_of_Z b -> a = b.
Proof.
  unfold str_of_Z. intros E.
  assert (Hnil : forall z, Z.to_int z <> Decimal.Pos Decimal.Nil
                           /\ Z.to_int z <> Decimal.Neg Decimal.Nil).
  { intros [|p|p]; simpl; split; try discriminate;
      intros [= H]; now apply (Unsigned.to_uint_nonnil p). }
  apply (f_equal NilZero.int_of_string) in E.
  destruct (Hnil a) as [Ha1 Ha2]. destruct (Hnil b) as [Hb1 Hb2].
  rewrite !NilZero.isi in E by assumption.
  injection E as E. now apply DecimalZ.to_int_inj.
Qed.

Lemma py_get_app (k : pykey) (a b : list (pykey * pyobj)) :
  py_get k (a ++ b)
  = match py_get k a with Some v => Some v | None => py_get k b end.
Proof.
  induction a as [|[k' v'] a IH]; simpl; [reflexivity|].
  destruct (key_eqb k k'); [reflexivity | exact IH].
Qed.

Lemma py_set_fresh (k : pykey) (v : pyobj) (acc : list (pykey * pyobj)) :
  py_get k acc = None -> py_set k v acc = (acc ++ [(k, v)])%list.
Proof.
  induction acc as [|[k' v'] acc IH]; simpl; [reflexivity|].
  destruct (key_eqb k k'); [discriminate|]. intros H. now rewrite IH.
Qed.

Lemma load_members (members : list (string * jsdoc)) (acc : list (pykey * pyobj)) :
  NoDup (map fst members) ->
  (forall k, In k (map fst members) -> py_get (KStr k) acc = None) ->
  fold_left (fun acc kv => match kv with
                           | (k, v) => py_set (KStr k) (json_load v) acc
                           end) members acc
  = (acc ++ map (fun kv => (KStr (fst kv), json_load (snd kv))) members)%list.
Proof.
  revert acc. induction members as [|[k v] ms IH]; intros acc Hnd Hfresh; simpl.
  - now rewrite app_nil_r.
  - inversion Hnd as [|? ? Hnotin Hnd']; subst.
    rewrite py_set_fresh by (apply Hfresh; now left).
    rewrite IH; [now rewrite <- app_assoc | exact Hnd' |].
    intros k' Hk'. rewrite py_get_app, Hfresh by (now right). simpl.
    destruct (String.eqb_spec k' k) as [->|_]; [contradiction | reflexivity].
Qed.

Lemma round_trip_dict (items : list (pykey * pyobj)) :
  NoDup (map (fun kv => key_str (fst kv)) items) ->
  round_trip (PDict items)
  = PDict (map (fun kv => (KStr (key_str (fst kv)), round_trip (snd kv))) items).
Proof.
  intros Hnd. unfold round_trip. cbn [json_dump json_load].
  rewrite load_members.
  - simpl. rewrite map_map. f_equal. apply map_ext. now intros [k v].
  - rewrite map_map. erewrite map_ext; [exact Hnd|]. now intros [k v].
  - reflexivity.
Qed.

Lemma round_trip_row (r : AggRow) :
  round_trip (PDict [ (KStr "id", PInt (agg_id r));
                      (KStr "title_length", PFloat (agg_title_length r));
                      (KStr "body_word_count", py_of_number (agg_body_word_count r)) ])
  = PDict [ (KStr "id", PInt (agg_id r));
            (KStr "title_length", PFloat (agg_title_length r));
            (KStr "body_word_count", py_of_number (agg_body_word_count r)) ].
Proof. destruct (agg_body_word_count r); reflexivity. Qed.

Lemma round_trip_breakdown (stats : list (pykey * AggRow)) :
  NoDup (map (fun kr => key_str (fst kr)) stats) ->
  exists breakdown,
    to_dict_index stats = PDict breakdown
    /\ round_trip (to_dict_index stats) = PDict (str_keys breakdown).
Proof.
  intros Hnd. unfold to_dict_index. eexists. split; [reflexivity|].
  rewrite round_trip_dict by (now rewrite map_map).
  unfold str_keys. rewrite !map_map. cbn [fst snd]. f_equal.
  apply map_ext. intros [k r]. cbn [fst snd]. now rewrite round_trip_row.
Qed.

Lemma int_keys_str_NoDup (us : list Z) :
  NoDup (map key_str (group_keys (mkSeries Int64 (map CInt us)))).
Proof.
  apply NoDup_map_NoDup_ForallPairs; [|apply group_keys_NoDup].
  intros a b Ha Hb E.
  apply group_keys_ints in Ha. destruct Ha as [x [-> _]].
  apply group_keys_ints in Hb. destruct Hb as [y [-> _]].
  simpl in E. f_equal. now apply str_of_Z_inj.
Qed.

Lemma py_get_str_keys (items : list (pykey * pyobj)) (k : pykey) (v : pyobj) :
  (forall a b, In a (map fst items) -> In b (map fst items) ->
               key_str a = key_str b -> a = b) ->
  py_get k items = Some v ->
  py_get (KStr (key_str k)) (str_keys items) = Some v.
Proof.
  induction items as [|[k' v'] items IH]; intros Hinj; simpl; [discriminate|].
  destruct (key_eqb_spec k k') as [->|Hne].
  - intros [= ->]. now rewrite String.eqb_refl.
  - intros Hget.
    assert (Hin : In k (map fst items)).
    { clear -Hget. induction items as [|[k0 v0] items IH]; simpl in *; [discriminate|].
      destruct (key_eqb_spec k k0) as [->|_]; [now left | right; auto]. }
    destruct (String.eqb_spec (key_str k) (key_str k')) as [E|_].
    + exfalso. apply Hne. apply Hinj; simpl; auto.
    + apply IH; [|exact Hget]. intros a b Ha Hb. apply Hinj; simpl; auto.
Qed.

(** C8, as the code has it: reading back the JSON document of the report
    gives the same summary, and the same breakdown rows under the str of
    their keys: [json.dump] writes the integer key 1 as the string 1, and
    [json.load] returns string keys. *)
Theorem report_round_trip (self : DataProcessor) (now : string) (df : DataFrame)
    (fs : filesystem)
    (Hdf : derived_frame df = true) (Hrows : nrows df <> 0%nat) :
  exists analysis summary breakdown doc,
    perform_analysis self now df = Ok analysis
    /\ dict_get (json_path self) (save_results self df analysis fs)
       = Some (JsonFile doc)
    /\ py_item (KStr "data_summary") analysis = Some summary
    /\ py_item (KStr "user_breakdown") analysis = Some (PDict breakdown)
    /\ py_item (KStr "data_summary") (json_load doc) = Some summary
    /\ py_item (KStr "user_breakdown") (json_load doc)
       = Some (PDict (str_keys breakdown))
    /\ forall k row, py_get k breakdown = Some row ->
         py_get (KStr (key_str k)) (str_keys breakdown) = Some row.
Proof.
  destruct (user_stats_derived_frame df Hdf) as [Hstats _].
  destruct (derived_frame_getitem df Hdf) as [Gu [Gtl [Gwc Ltl]]].
  assert (Hne : column_ints df "title_length" <> []).
  { intros E. rewrite E in Ltl. simpl in Ltl. congruence. }
  assert (Hq : exists q, mean (map CInt (column_ints df "title_length")) = F q)
    by (rewrite mean_ints by exact Hne; eauto).
  destruct Hq as [q Hq].
  destruct (min_ints _ Hne) as [lo [Hlo _]].
  destruct (max_ints _ Hne) as [hi [Hhi _]].
  set (by_ := mkSeries Int64 (map CInt (column_ints df "userId"))) in *.
  match type of Hstats with _ = Ok ?s => set (stats := s) in * end.
  destruct (round_trip_breakdown stats) as [breakdown [Hbd Hrt]].
  { unfold stats. rewrite map_map. cbn [fst]. apply int_keys_str_NoDup. }
  unfold perform_analysis.
  rewrite Gu, Gtl, Gwc, Hstats. cbn [bind numeric dtype_of cells].
  rewrite Hq, Hlo, Hhi, sum_ints. cbn [bind int_of_opt].
  rewrite Hbd.
  eexists. exists (PDict
    [ (KStr "total_records", PInt (Z.of_nat (nrows df)));
      (KStr "unique_users", PInt (nunique by_));
      (KStr "avg_title_length", PFloat (F q));
      (KStr "total_words", PInt (zsum (column_ints df "body_word_count")));
      (KStr "min_title_length", PInt lo);
      (KStr "max_title_length", PInt hi) ]).
  exists breakdown. eexists.
  split; [reflexivity|].
  split; [unfold save_results; rewrite dict_get_set, String.eqb_refl; reflexivity|].
  split; [reflexivity|]. split; [reflexivity|].
  fold (round_trip (PDict
    [ (KStr "execution_info",
       PDict [ (KStr "cronjob_name", PStr (cronjob_name self));
               (KStr "execution_uuid", PStr (execution_uuid self));
               (KStr "manual_trigger", PBool (manual_trigger self));
               (KStr "processed_at", PStr now) ]);
      (KStr "data_summary",
       PDict [ (KStr "total_records", PInt (Z.of_nat (nrows df)));
               (KStr "unique_users", PInt (nunique by_));
               (KStr "avg_title_length", PFloat (F q));
               (KStr "total_words", PInt (zsum (column_ints df "body_word_count")));
               (KStr "min_title_length", PInt lo);
               (KStr "max_title_length", PInt hi) ]);
      (KStr "user_breakdown", PDict breakdown) ])).
  rewrite round_trip_dict
    by (repeat constructor; simpl; intuition discriminate).
  cbn [map fst snd py_item py_get key_eqb key_str String.eqb Ascii.eqb Bool.eqb].
  rewrite <- Hbd, Hrt.
  split; [reflexivity|]. split; [reflexivity|].
  intros k row Hget. apply py_get_str_keys; [|exact Hget].
  assert (Hkeys : map fst breakdown = group_keys by_).
  { injection Hbd as <-. rewrite map_map. cbn [fst]. unfold stats.
    rewrite map_map. cbn [fst]. apply map_id. }
  rewrite Hkeys. intros a b Ha Hb E.
  apply group_keys_ints in Ha. destruct Ha as [x [-> _]].
  apply group_keys_ints in Hb. destruct Hb as [y [-> _]].
  simpl in E. f_equal. now apply str_of_Z_inj.
Qed.

Lemma report_round_trip_witness :
  derived_frame (derived "2024-01-01T00:00:00+00:00" scenario) = true
  /\ nrows (derived "2024-01-01T00:00:00+00:00" scenario) <> 0%nat
  /\ exists analysis breakdown doc,
       perform_analysis an_instance "2024-01-01T00:00:05+00:00"
         (derived "2024-01-01T00:00:00+00:00" scenario) = Ok analysis
       /\ dict_get (json_path an_instance)
            (save_results an_instance (derived "2024-01-01T00:00:00+00:00" scenario)
                          analysis [])
          = Some (JsonFile doc)
       /\ py_item (KStr "user_breakdown") analysis = Some (PDict breakdown)
       /\ py_item (KStr "user_breakdown") (json_load doc)
          = Some (PDict (str_keys breakdown)).
Proof.
  assert (Hrows : nrows (derived "2024-01-01T00:00:00+00:00" scenario) <> 0%nat)
    by discriminate.
  split; [reflexivity|]. split; [exact Hrows|].
  destruct (report_round_trip an_instance "2024-01-01T00:00:05+00:00"
              (derived "2024-01-01T00:00:00+00:00" scenario) [] eq_refl Hrows)
    as [analysis [summary [breakdown [doc [H1 [H2 [_ [H4 [_ [H6 _]]]]]]]]]].
  exists analysis, breakdown, doc. repeat split; assumption.
Defined.

(** C8 as stated fails on the keys: for the three records of the scenario
    the breakdown in memory has the integer keys 1 and 2, the breakdown
    read back from the JSON document has the string keys 1 and 2, so the
    two mappings differ and a lookup of the integer 1 finds nothing. *)
Lemma report_keys_become_strings :
  exists analysis doc breakdown breakdown',
    perform_analysis an_instance "2024-01-01T00:00:05+00:00"
      (derived "2024-01-01T00:00:00+00:00" scenario) = Ok analysis
    /\ dict_get (json_path an_instance)
         (save_results an_instance (derived "2024-01-01T00:00:00+00:00" scenario)
                       analysis [])
       = Some (JsonFile doc)
    /\ py_item (KStr "user_breakdown") analysis = Some breakdown
    /\ py_item (KStr "user_breakdown") (json_load doc) = Some breakdown'
    /\ breakdown' <> breakdown
    /\ py_item (KInt 1) breakdown <> None
    /\ py_item (KInt 1) breakdown' = None
    /\ py_item (KStr "1") breakdown' <> None.
Proof.
  do 4 eexists.
  split; [vm_compute; reflexivity|].
  split; [vm_compute; reflexivity|].
  split; [vm_compute; reflexivity|].
  split; [vm_compute; reflexivity|].
  split; [discriminate|].
  split; [vm_compute; discriminate|].
  split; [vm_compute; reflexivity | vm_compute; discriminate].
Qed.

(** ** Reading back what csv.writer writes (C9) *)

Lemma append_assoc (a b c : string) : ((a ++ b) ++ c = a ++ (b ++ c))%string.
Proof. induction a as [|x a IH]; simpl; [reflexivity | now rewrite IH]. Qed.

Lemma append_nil_r (a : string) : (a ++ "" = a)%string.
Proof. induction a as [|x a IH]; simpl; [reflexivity | now rewrite IH]. Qed.

Lemma special_false (c : ascii) :
  special c = false ->
  Ascii.eqb c comma = false /\ Ascii.eqb c dquote = false
  /\ Ascii.eqb c LF = false.
Proof.
  unfold special. intros H.
  apply orb_false_iff in H. destruct H as [H _].
  apply orb_false_iff in H. destruct H as [H H3].
  apply orb_false_iff in H. destruct H as [H1 H2]. auto.
Qed.

Lemma read_unquoted (acc : string) (row : list string) (f : string)
    (sep : ascii) (rest : string) :
  needs_quote f = false -> sep = comma \/ sep = LF ->
  read_from InField acc row (f ++ String sep rest)
  = after_field sep row (acc ++ f) rest.
Proof.
  intros Hq Hsep. revert acc. induction f as [|c f IH]; intros acc.
  - rewrite append_nil_r. unfold after_field.
    destruct Hsep as [-> | ->]; reflexivity.
  - simpl in Hq. apply orb_false_iff in Hq. destruct Hq as [Hc Hf].
    destruct (special_false c Hc) as [H1 [H2 H3]].
    cbn [String.append read_from]. rewrite H1, H3, (IH Hf), append_assoc.
    reflexivity.
Qed.

Lemma read_quoted (acc : string) (row : list string) (f : string)
    (sep : ascii) (rest : string) :
  sep = comma \/ sep = LF ->
  read_from InQuoted acc row (double_quotes f ++ String dquote (String sep rest))
  = after_field sep row (acc ++ f) rest.
Proof.
  intros Hsep. revert acc. induction f as [|c f IH]; intros acc.
  - rewrite append_nil_r. unfold after_field.
    destruct Hsep as [-> | ->]; reflexivity.
  - cbn [double_quotes]. destruct (Ascii.eqb_spec c dquote) as [->|Hne].
    + cbn [String.append read_from]. rewrite Ascii.eqb_refl.
      rewrite IH, append_assoc. reflexivity.
    + cbn [String.append read_from].
      apply Ascii.eqb_neq in Hne. rewrite Hne, IH, append_assoc. reflexivity.
Qed.

Lemma read_field (st : reader_state) (row : list string) (f : string)
    (sep : ascii) (rest : string) :
  st = StartRow \/ st = StartField ->
  sep = comma \/ sep = LF ->
  ~ (st = StartRow /\ f = "" /\ sep = LF) ->
  read_from st "" row (quote_field f ++ String sep rest)
  = after_field sep row f rest.
Proof.
  intros Hst Hsep Hex. unfold quote_field.
  destruct (needs_quote f) eqn:Hq.
  - unfold quoted. cbn [String.append]. rewrite append_assoc.
    cbn [String.append].
    destruct Hst as [-> | ->]; cbn [read_from]; rewrite Ascii.eqb_refl;
      now rewrite read_quoted.
  - destruct f as [|c f].
    + unfold after_field.
      destruct Hsep as [-> | ->]; destruct Hst as [-> | ->]; try reflexivity.
      exfalso. apply Hex. auto.
    + simpl in Hq. apply orb_false_iff in Hq. destruct Hq as [Hc Hf].
      destruct (special_false c Hc) as [H1 [H2 H3]].
      destruct Hst as [-> | ->]; cbn [String.append read_from];
        rewrite H1, H2, H3; now rewrite read_unquoted.
Qed.

Lemma read_row (st : reader_state) (row fs : list string) (rest : string) :
  st = StartRow \/ st = StartField ->
  fs <> [] -> (st = StartRow -> fs <> [""]) ->
  read_from st "" row
    (join (String comma "") (map quote_field fs) ++ String LF rest)
  = (row ++ fs)%list :: read_from StartRow "" [] rest.
Proof.
  intros Hst Hne Hex. revert st row Hst Hex.
  induction fs as [|f fs IH]; intros st row Hst Hex; [congruence|].
  destruct fs as [|f2 fs].
  - cbn [map join]. rewrite read_field; auto.
    + intros [E1 [E2 _]]. subst. now apply Hex.
  - change (join (String comma "") (map quote_field (f :: f2 :: fs)))
      with (quote_field f ++ String comma "" ++ join (String comma "") (map quote_field (f2 :: fs)))%string.
    rewrite append_assoc. cbn [String.append].
    rewrite read_field; auto.
    + unfold after_field. rewrite Ascii.eqb_refl.
      rewrite IH; auto; [|discriminate|discriminate].
      now rewrite <- app_assoc.
    + intros [_ [_ E]]. discriminate.
Qed.

Lemma read_writerow (fs : list string) (rest : string) :
  read_from StartRow "" [] (writerow fs ++ rest) = fs :: read_from StartRow "" [] rest.
Proof.
  assert (Hgen : fs <> [] -> fs <> [""] ->
    read_from StartRow "" []
      ((join (String comma "") (map quote_field fs) ++ String LF "") ++ rest)
    = fs :: read_from StartRow "" [] rest).
  { intros H1 H2. rewrite append_assoc. cbn [String.append].
    now rewrite read_row by auto. }
  destruct fs as [|f [|f2 fs]].
  - reflexivity.
  - destruct f as [|c f]; [reflexivity|].
    apply Hgen; discriminate.
  - destruct f; apply Hgen; discriminate.
Qed.

(** Whatever rows [csv.writer] writes, a CSV reader gets them back: the
    quoting loses nothing. *)
Lemma read_writerows (rows : list (list string)) :
  read_csv (writerows rows) = rows.
Proof.
  unfold read_csv. induction rows as [|row rows IH]; [reflexivity|].
  cbn [writerows]. now rewrite read_writerow, IH.
Qed.

Lemma keys_tabulate {A : Type} (f : string -> A) (ks : list string) :
  keys (map (fun k => (k, f k)) ks) = ks.
Proof. unfold keys. rewrite map_map. apply map_id. Qed.

Lemma keys_derived (now : string) (rs : list record) :
  keys (columns (derived now rs))
  = fold_left add_key derived_names (column_names rs).
Proof.
  unfold derived, setitem_scalar, setitem, frame; cbn [columns].
  rewrite !keys_dict_set.
  now rewrite (keys_tabulate (fun k => maybe_convert_objects (dicts_to_array rs k))).
Qed.

(** C9, as the code has it: the CSV file starts with a header row that
    lists the keys of the raw records in the order of their first
    appearance, followed by processed_at, title_length and
    body_word_count (for records with the keys id, title, body, userId
    in this order, as the fallback dataset has them, the order is id,
    title, body, userId, processed_at, title_length, body_word_count);
    then comes exactly one row per record, in order; the quoting is such
    that a CSV reader gets back the header and every row. *)
Theorem csv_layout (now : string) (rs : list record)
    (Hne : rs <> []) (Hwf : forallb wf_record rs = true) :
  exists df,
    process_data now (DList rs) = Ok df
    /\ keys (columns df) = fold_left add_key derived_names (column_names rs)
    /\ (column_names rs = ["id"; "title"; "body"; "userId"] ->
        keys (columns df)
        = ["id"; "title"; "body"; "userId";
           "processed_at"; "title_length"; "body_word_count"])
    /\ read_csv (to_csv df) = keys (columns df) :: csv_rows df
    /\ List.length (csv_rows df) = List.length rs
    /\ forall i, (i < List.length rs)%nat ->
         nth_error (csv_rows df) i = Some (csv_row df i).
Proof.
  destruct (process_data_wf now rs Hne Hwf) as [Hpd _].
  exists (derived now rs). split; [exact Hpd|].
  split; [apply keys_derived|].
  split; [intros E; rewrite keys_derived, E; reflexivity|].
  split; [apply read_writerows|].
  unfold csv_rows. rewrite length_map, length_seq.
  split; [reflexivity|].
  intros i Hi. change (nrows (derived now rs)) with (List.length rs).
  rewrite (map_nth_error (csv_row (derived now rs)) i (seq 0 (List.length rs))
             (d := i)); [reflexivity|].
  rewrite nth_error_seq. apply Nat.ltb_lt in Hi. now rewrite Hi.
Qed.

Lemma csv_layout_witness :
  _generate_mock_data <> [] /\ forallb wf_record _generate_mock_data = true
  /\ exists df,
       process_data "2024-01-01T00:00:00+00:00" (DList _generate_mock_data) = Ok df
       /\ keys (columns df)
          = ["id"; "title"; "body"; "userId";
             "processed_at"; "title_length"; "body_word_count"]
       /\ read_csv (to_csv df) = keys (columns df) :: csv_rows df
       /\ List.length (csv_rows df) = 10%nat.
Proof.
  assert (Hne : _generate_mock_data <> []) by discriminate.
  split; [exact Hne|]. split; [reflexivity|].
  destruct (csv_layout "2024-01-01T00:00:00+00:00" _generate_mock_data Hne eq_refl)
    as [df [H1 [_ [H3 [H4 [H5 _]]]]]].
  exists df. split; [exact H1|]. split; [apply H3; reflexivity|].
  split; [exact H4 | exact H5].
Defined.

(** C9 as stated fails on the order of the columns: for a record whose
    keys come in the order userId, id, title, body, as the remote API
    sends them, the header starts with userId. *)
Lemma header_follows_key_order :
  exists df,
    process_data "2024-01-01T00:00:00+00:00" (DList api_order_batch) = Ok df
    /\ read_csv (to_csv df)
       = [ ["userId"; "id"; "title"; "body";
            "processed_at"; "title_length"; "body_word_count"];
           ["1"; "1"; "AB"; "a b c"; "2024-01-01T00:00:00+00:00"; "2"; "3"] ]
    /\ keys (columns df)
       <> ["id"; "title"; "body"; "userId";
           "processed_at"; "title_length"; "body_word_count"].
Proof.
  eexists. split; [vm_compute; reflexivity|].
  split; [vm_compute; reflexivity | vm_compute; discriminate].
Qed.

(* ================================================================== *)
(** * Further properties of the pipeline *)

(** ** When [process_data] returns and what it raises *)

Lemma object_column_cells (cs : list cell) :
  dtype_of (maybe_convert_objects cs) = Object ->
  cells (maybe_convert_objects cs) = cs.
Proof.
  unfold maybe_convert_objects.
  destruct (existsb is_str cs); [reflexivity|].
  destruct (existsb is_int cs).
  - destruct (existsb isna cs); discriminate.
  - destruct (existsb is_nan cs); [discriminate | reflexivity].
Qed.

Lemma user_stats_derived_cases (now : string) (rs : list record) :
  exists stats,
    user_stats (derived now rs)
    = if negb (has_key "userId" rs) then Raise (KeyError "userId")
      else if negb (has_key "id" rs) then Raise (KeyError "id")
      else Ok stats.
Proof.
  unfold user_stats. rewrite !getitem_derived_raw by reflexivity.
  rewrite !getitem_frame.
  destruct (has_key "userId" rs); cbn [bind negb]; [|now exists []].
  destruct (has_key "id" rs); cbn [bind negb]; [|now exists []].
  unfold derived. rewrite !getitem_setitem. cbn [bind String.eqb Ascii.eqb Bool.eqb].
  rewrite !numeric_lengths_series. cbn [bind]. eexists. reflexivity.
Qed.

(** The outcome of [process_data] on a list of records, check by check
    in the order in which the code reads the columns. *)
Lemma process_data_cases (now : string) (rs : list record) :
  process_data now (DList rs)
  = if negb (has_key "title" rs) then Raise (KeyError "title")
    else if negb (object_column "title" rs) then Raise AttributeError
    else if negb (has_key "body" rs) then Raise (KeyError "body")
    else if negb (object_column "body" rs) then Raise AttributeError
    else if negb (has_key "userId" rs) then Raise (KeyError "userId")
    else if negb (has_key "id" rs) then Raise (KeyError "id")
    else Ok (derived now rs).
Proof.
  destruct (user_stats_derived_cases now rs) as [stats Hstats].
  unfold process_data, pd_DataFrame. cbn [bind].
  unfold setitem_scalar.
  rewrite getitem_setitem. cbn [String.eqb Ascii.eqb Bool.eqb].
  rewrite getitem_frame.
  destruct (has_key "title" rs); cbn [bind negb]; [|reflexivity].
  unfold str_len, str_accessor, object_column.
  destruct (dtype_of (maybe_convert_objects (dicts_to_array rs "title"))) eqn:Ht;
    cbn [bind negb]; try reflexivity.
  rewrite (object_column_cells _ Ht).
  rewrite !getitem_setitem. cbn [String.eqb Ascii.eqb Bool.eqb].
  rewrite getitem_frame.
  destruct (has_key "body" rs); cbn [bind negb]; [|reflexivity].
  unfold str_split, str_accessor.
  destruct (dtype_of (maybe_convert_objects (dicts_to_array rs "body"))) eqn:Hb;
    cbn [bind negb]; try reflexivity.
  rewrite (object_column_cells _ Hb).
  unfold list_len, dicts_to_array. rewrite !map_map.
  match goal with
  | |- bind (user_stats ?df) _ = _ =>
      replace df with (derived now rs)
  end.
  - rewrite Hstats.
    destruct (has_key "userId" rs); cbn [bind negb]; [|reflexivity].
    destruct (has_key "id" rs); reflexivity.
  - unfold derived, setitem_scalar, title_length_cell, word_count_cell.
    f_equal; [f_equal|]; f_equal; apply map_ext; intros r;
      destruct (dict_get _ r) as [[| |]|]; reflexivity.
Qed.

Lemma has_key_nonempty (k : string) (rs : list record) :
  has_key k rs = true -> rs <> [].
Proof. destruct rs; [discriminate | discriminate]. Qed.

(** X1: whenever [process_data] returns a frame, its input was a list of
    records, not empty, in which title, body, userId and id each occur
    as a key; the frame has one row per record, its columns are the keys
    of the records in the order of their first appearance followed by
    the three derived names, and every other column is as
    [pd.DataFrame] built it. *)
Theorem process_data_inversion (now : string) (raw : pydata) (df : DataFrame)
    (Hok : process_data now raw = Ok df) :
  exists rs,
    raw = DList rs /\ rs <> []
    /\ nrows df = List.length rs
    /\ has_key "title" rs = true /\ has_key "body" rs = true
    /\ has_key "userId" rs = true /\ has_key "id" rs = true
    /\ keys (columns df) = fold_left add_key derived_names (column_names rs)
    /\ forall k, ~ In k derived_names -> getitem df k = getitem (frame rs) k.
Proof.
  destruct raw as [rs|s]; [|discriminate]. exists rs.
  rewrite process_data_cases in Hok.
  destruct (has_key "title" rs) eqn:Ht; [|discriminate].
  destruct (object_column "title" rs); [|discriminate].
  destruct (has_key "body" rs) eqn:Hb; [|discriminate].
  destruct (object_column "body" rs); [|discriminate].
  destruct (has_key "userId" rs) eqn:Hu; [|discriminate].
  destruct (has_key "id" rs) eqn:Hi; [|discriminate].
  cbn [negb] in Hok. injection Hok as <-.
  split; [reflexivity|]. split; [now apply (has_key_nonempty "title")|].
  split; [reflexivity|]. repeat (split; [reflexivity|]).
  split; [apply keys_derived|].
  intros k Hk. apply getitem_derived_raw; apply String.eqb_neq; intros ->;
    apply Hk; simpl; auto.
Qed.

Lemma process_data_inversion_witness :
  process_data "2024-01-01T00:00:00+00:00" (DList scenario)
  = Ok (derived "2024-01-01T00:00:00+00:00" scenario)
  /\ exists rs,
       DList scenario = DList rs /\ rs <> []
       /\ nrows (derived "2024-01-01T00:00:00+00:00" scenario) = List.length rs.
Proof.
  split; [reflexivity|].
  destruct (process_data_inversion "2024-01-01T00:00:00+00:00" (DList scenario)
              (derived "2024-01-01T00:00:00+00:00" scenario) eq_refl)
    as [rs [H1 [H2 [H3 _]]]].
  exists rs. repeat split; assumption.
Defined.

(** ** A run needs a string title *)

Lemma no_str_title_cells (rs : list record) :
  has_str "title" rs = false ->
  numbers (cells (lengths_series (map title_length_cell rs))) = [].
Proof.
  intros H. unfold lengths_series. rewrite has_str_title_length, H.
  destruct (map title_length_cell rs) as [|c cs]; [reflexivity|].
  cbn [cells]. generalize (c :: cs). intros l.
  induction l as [|x l IH]; [reflexivity | exact IH].
Qed.

Lemma perform_analysis_no_str_title (self : DataProcessor) (t now : string)
    (rs : list record) :
  has_str "title" rs = false -> has_key "userId" rs = true ->
  perform_analysis self now (derived t rs) = Raise ValueError.
Proof.
  intros Hstr Hu. unfold perform_analysis.
  rewrite getitem_derived_raw by reflexivity.
  rewrite getitem_frame, Hu. cbn [bind].
  unfold derived. rewrite !getitem_setitem. cbn [bind String.eqb Ascii.eqb Bool.eqb].
  rewrite !numeric_lengths_series. cbn [bind].
  unfold min. rewrite (no_str_title_cells rs Hstr). reflexivity.
Qed.

(** X4: when no record of the fetched batch has a string title, the run
    fails: it returns exit code 1 and leaves the file system as it
    was. *)
Theorem run_needs_string_title (self : DataProcessor) (t_process t_analysis : string)
    (o : outcome) (fs : filesystem) (rs : list record)
    (Hfetch : fetch_sample_data o = Ok (DList rs))
    (Hstr : has_str "title" rs = false) :
  run self t_process t_analysis o fs = (1, fs).
Proof.
  unfold run. rewrite Hfetch. cbn [bind]. rewrite process_data_cases.
  destruct (has_key "title" rs); cbn [negb bind]; [|reflexivity].
  destruct (object_column "title" rs); cbn [negb bind]; [|reflexivity].
  destruct (has_key "body" rs); cbn [negb bind]; [|reflexivity].
  destruct (object_column "body" rs); cbn [negb bind]; [|reflexivity].
  destruct (has_key "userId" rs) eqn:Hu; cbn [negb bind]; [|reflexivity].
  destruct (has_key "id" rs); cbn [negb bind]; [|reflexivity].
  now rewrite perform_analysis_no_str_title.
Qed.

Lemma run_needs_string_title_witness :
  fetch_sample_data (Response 200 (Json (JArr null_titles_only_batch)))
  = Ok (DList null_titles_only_batch)
  /\ has_str "title" null_titles_only_batch = false
  /\ run an_instance "t1" "t2" (Response 200 (Json (JArr null_titles_only_batch))) []
     = (1, []).
Proof.
  split; [reflexivity|]. split; [reflexivity|].
  apply (run_needs_string_title an_instance "t1" "t2"
           (Response 200 (Json (JArr null_titles_only_batch))) []
           null_titles_only_batch); reflexivity.
Defined.

(** ** The report is consistent with its breakdown *)

Lemma zsum_map_mul {A : Type} (x : Z) (f : A -> Z) (l : list A) :
  zsum (map (fun a => x * f a) l) = x * zsum (map f l).
Proof. induction l as [|a l IH]; simpl; [lia | rewrite IH; lia]. Qed.

Lemma group_cells_cons (d : dtype) (b : cell) (bs : list cell) (k : pykey)
    (c : cell) (cs : list cell) :
  group_cells (mkSeries d (b :: bs)) k (c :: cs)
  = if in_group k (key_of d b) then c :: group_cells (mkSeries d bs) k cs
    else group_cells (mkSeries d bs) k cs.
Proof.
  unfold group_cells, row_keys. cbn [cells dtype_of map combine filter fst].
  destruct (in_group k (key_of d b)); reflexivity.
Qed.

(** The sums of the groups add up to the sum of the column. *)
Lemma group_sums_add_up (ks : list pykey) (us xs : list Z) :
  NoDup ks -> (forall u, In u us -> In (KInt u) ks) ->
  List.length xs = List.length us ->
  zsum (map (fun k => sum (group_cells (mkSeries Int64 (map CInt us)) k (map CInt xs))) ks)
  = zsum xs.
Proof.
  intros Hnd. revert xs.
  induction us as [|u us IH]; intros [|x xs] Hall Hlen; try discriminate.
  - clear. induction ks as [|k ks IH]; simpl; [reflexivity | exact IH].
  - rewrite (map_ext _ (fun k => x * (if key_eqb k (KInt u) then 1 else 0)
             + sum (group_cells (mkSeries Int64 (map CInt us)) k (map CInt xs)))).
    + rewrite zsum_map_add, zsum_map_mul, zsum_indicator;
        [|exact Hnd | apply Hall; now left].
      rewrite IH; [simpl; lia | intros u' Hu'; apply Hall; now right |].
      simpl in Hlen. congruence.
    + intros k. cbn [map]. rewrite group_cells_cons. cbn [key_of in_group].
      destruct (key_eqb k (KInt u)); [|lia].
      change (sum (CInt x :: ?l)) with (x + sum l). lia.
Qed.

Lemma group_counts_add_up (us ids : list Z) :
  List.length ids = List.length us ->
  zsum (map (fun k => count (group_cells (mkSeries Int64 (map CInt us)) k (map CInt ids)))
            (group_keys (mkSeries Int64 (map CInt us))))
  = Z.of_nat (List.length us).
Proof.
  intros Hlen.
  rewrite (map_ext_in _ (fun k => Z.of_nat (List.length
            (filter (in_group k) (row_keys (mkSeries Int64 (map CInt us))))))).
  - rewrite group_sizes_add_up.
    + unfold row_keys; cbn [cells]. now rewrite !length_map.
    + apply group_keys_NoDup.
    + intros o Ho. rewrite row_keys_ints in Ho. apply in_map_iff in Ho.
      destruct Ho as [g [<- Hg]]. exists (KInt g). split; [reflexivity|].
      apply group_keys_ints. now exists g.
  - intros k Hk. apply group_keys_ints in Hk. destruct Hk as [g [-> _]].
    rewrite group_cells_ints, count_ints, <- (length_map CInt), <- group_cells_ints.
    f_equal. apply group_cells_filter. cbn [cells]. now rewrite !length_map.
Qed.

(** The report that [perform_analysis] builds from a frame of derived
    records that is not empty. *)
Lemma perform_analysis_derived_frame (self : DataProcessor) (now : string)
    (df : DataFrame) :
  derived_frame df = true -> nrows df <> 0%nat ->
  let by_ := mkSeries Int64 (map CInt (column_ints df "userId")) in
  let id := mkSeries Int64 (map CInt (column_ints df "id")) in
  let tl := mkSeries Int64 (map CInt (column_ints df "title_length")) in
  let wc := mkSeries Int64 (map CInt (column_ints df "body_word_count")) in
  let stats := map (fun k => (k, agg by_ id tl wc k)) (group_keys by_) in
  exists q lo hi,
    user_stats df = Ok stats
    /\ q = fl (arithmetic_mean (column_ints df "title_length"))
    /\ perform_analysis self now df
       = Ok (PDict
          [ (KStr "execution_info",
             PDict [ (KStr "cronjob_name", PStr (cronjob_name self));
                     (KStr "execution_uuid", PStr (execution_uuid self));
                     (KStr "manual_trigger", PBool (manual_trigger self));
                     (KStr "processed_at", PStr now) ]);
            (KStr "data_summary",
             PDict [ (KStr "total_records", PInt (Z.of_nat (nrows df)));
                     (KStr "unique_users", PInt (nunique by_));
                     (KStr "avg_title_length", PFloat (F q));
                     (KStr "total_words", PInt (zsum (column_ints df "body_word_count")));
                     (KStr "min_title_length", PInt lo);
                     (KStr "max_title_length", PInt hi) ]);
            (KStr "user_breakdown", to_dict_index stats) ])
    /\ In lo (column_ints df "title_length")
    /\ In hi (column_ints df "title_length")
    /\ (forall t, In t (column_ints df "title_length") -> lo <= t <= hi)
    /\ column_ints df "title_length" <> [].
Proof.
  intros Hdf Hrows. cbv zeta.
  destruct (user_stats_derived_frame df Hdf) as [Hstats _].
  destruct (derived_frame_getitem df Hdf) as [Gu [Gtl [Gwc Ltl]]].
  assert (Hne : column_ints df "title_length" <> []).
  { intros E. rewrite E in Ltl. simpl in Ltl. congruence. }
  destruct (min_ints _ Hne) as [lo [Hlo [Hlo_in Hlo_le]]].
  destruct (max_ints _ Hne) as [hi [Hhi [Hhi_in Hhi_le]]].
  eexists. exists lo, hi. split; [exact Hstats|]. split; [reflexivity|].
  split.
  - unfold perform_analysis.
    rewrite Gu, Gtl, Gwc, Hstats. cbn [bind numeric dtype_of cells].
    rewrite (mean_ints _ Hne), Hlo, Hhi, sum_ints. reflexivity.
  - split; [exact Hlo_in|]. split; [exact Hhi_in|]. split; [|exact Hne].
    intros t Ht. split; [now apply Hlo_le | now apply Hhi_le].
Qed.

(** X5: in every report built from a frame of derived records, the
    counts of the breakdown add up to total_records, its word sums add
    up to total_words, and it has unique_users rows. *)
Theorem report_totals_match_breakdown (self : DataProcessor) (now : string)
    (df : DataFrame)
    (Hdf : derived_frame df = true) (Hrows : nrows df <> 0%nat) :
  exists analysis summary stats words,
    perform_analysis self now df = Ok analysis
    /\ user_stats df = Ok stats
    /\ py_item (KStr "user_breakdown") analysis = Some (to_dict_index stats)
    /\ py_item (KStr "data_summary") analysis = Some summary
    /\ py_item (KStr "total_records") summary
       = Some (PInt (zsum (map (fun kr => agg_id (snd kr)) stats)))
    /\ map (fun kr => int_of_number (agg_body_word_count (snd kr))) stats
       = map Some words
    /\ py_item (KStr "total_words") summary = Some (PInt (zsum words))
    /\ py_item (KStr "unique_users") summary
       = Some (PInt (Z.of_nat (List.length stats))).
Proof.
  destruct (perform_analysis_derived_frame self now df Hdf Hrows)
    as [q [lo [hi [Hstats [_ [Hpa _]]]]]].
  destruct (user_stats_derived_frame df Hdf) as [_ [Lu [Lid [_ Lwc]]]].
  set (by_ := mkSeries Int64 (map CInt (column_ints df "userId"))) in *.
  eexists. eexists. eexists.
  exists (map (fun k => sum (group_cells by_ k (map CInt (column_ints df "body_word_count"))))
              (group_keys by_)).
  split; [exact Hpa|]. split; [exact Hstats|].
  split; [reflexivity|]. split; [reflexivity|].
  split.
  - cbn [py_item py_get key_eqb String.eqb Ascii.eqb Bool.eqb].
    rewrite map_map. cbn [snd agg agg_id cells].
    unfold by_. rewrite group_counts_add_up by congruence. now rewrite Lu.
  - split; [rewrite !map_map; reflexivity|].
    split.
    + cbn [py_item py_get key_eqb String.eqb Ascii.eqb Bool.eqb].
      unfold by_. rewrite group_sums_add_up; [reflexivity | apply group_keys_NoDup | | congruence].
      intros u Hu. apply group_keys_ints. now exists u.
    + cbn [py_item py_get key_eqb String.eqb Ascii.eqb Bool.eqb].
      rewrite nunique_group_keys. now rewrite !length_map.
Qed.

Lemma report_totals_match_breakdown_witness :
  derived_frame (derived "2024-01-01T00:00:00+00:00" scenario) = true
  /\ nrows (derived "2024-01-01T00:00:00+00:00" scenario) <> 0%nat
  /\ exists analysis stats,
       perform_analysis an_instance "2024-01-01T00:00:05+00:00"
         (derived "2024-01-01T00:00:00+00:00" scenario) = Ok analysis
       /\ user_stats (derived "2024-01-01T00:00:00+00:00" scenario) = Ok stats
       /\ py_item (KStr "user_breakdown") analysis = Some (to_dict_index stats).
Proof.
  assert (Hrows : nrows (derived "2024-01-01T00:00:00+00:00" scenario) <> 0%nat)
    by discriminate.
  split; [reflexivity|]. split; [exact Hrows|].
  destruct (report_totals_match_breakdown an_instance "2024-01-01T00:00:05+00:00"
              (derived "2024-01-01T00:00:00+00:00" scenario) eq_refl Hrows)
    as [analysis [summary [stats [words [H1 [H2 [H3 _]]]]]]].
  exists analysis, stats. repeat split; assumption.
Defined.

Lemma zsum_bounds (lo hi : Z) (l : list Z) :
  (forall t, In t l -> lo <= t <= hi) ->
  lo * Z.of_nat (List.length l) <= zsum l <= hi * Z.of_nat (List.length l).
Proof.
  induction l as [|x l IH]; intros H; [simpl; lia|].
  specialize (IH (fun t Ht => H t (or_intror Ht))).
  pose proof (H x (or_introl eq_refl)).
  cbn [zsum fold_right List.length]. fold (zsum l). lia.
Qed.

Lemma arithmetic_mean_bounds (lo hi : Z) (l : list Z) :
  l <> [] -> (forall t, In t l -> lo <= t <= hi) ->
  (inject_Z lo <= arithmetic_mean l)%Q /\ (arithmetic_mean l <= inject_Z hi)%Q.
Proof.
  intros Hne H. destruct (zsum_bounds lo hi l H) as [Hlo Hhi].
  assert (Hn : 0 < Z.of_nat (List.length l)) by (destruct l; [congruence | simpl; lia]).
  assert (HnQ : (0 < inject_Z (Z.of_nat (List.length l)))%Q)
    by (change 0%Q with (inject_Z 0); rewrite <- Zlt_Qlt; exact Hn).
  unfold arithmetic_mean. split.
  - apply Qle_shift_div_l; [exact HnQ|].
    rewrite <- inject_Z_mult, <- Zle_Qle. exact Hlo.
  - apply Qle_shift_div_r; [exact HnQ|].
    rewrite <- inject_Z_mult, <- Zle_Qle. exact Hhi.
Qed.

Lemma exact_sum_member (l : list Z) (t : Z) :
  exact_sum l = true -> In t l -> Z.abs t <= 2 ^ 53.
Proof.
  unfold exact_sum. intros H Hin. apply Z.leb_le in H.
  assert (Hle : Z.abs t <= zsum (map Z.abs l) /\ 0 <= zsum (map Z.abs l)); [|lia].
  clear H. induction l as [|x l IH]; [contradiction|].
  cbn [map zsum fold_right]. fold (zsum (map Z.abs l)).
  assert (H0 : 0 <= zsum (map Z.abs l)).
  { clear. induction l as [|y l IH]; simpl; [lia|]. fold (zsum (map Z.abs l)). lia. }
  destruct Hin as [-> | Hin]; [lia|]. specialize (IH Hin). lia.
Qed.

(** X6: in every report built from a frame of derived records whose
    title lengths add up to 2^53 at most, so that float64 holds each of
    them, avg_title_length lies between min_title_length and
    max_title_length. *)
Theorem average_between_extrema (self : DataProcessor) (now : string)
    (df : DataFrame)
    (Hdf : derived_frame df = true) (Hrows : nrows df <> 0%nat)
    (Hsum : exact_sum (column_ints df "title_length") = true) :
  exists analysis summary q lo hi,
    perform_analysis self now df = Ok analysis
    /\ py_item (KStr "data_summary") analysis = Some summary
    /\ py_item (KStr "avg_title_length") summary = Some (PFloat (F q))
    /\ py_item (KStr "min_title_length") summary = Some (PInt lo)
    /\ py_item (KStr "max_title_length") summary = Some (PInt hi)
    /\ (inject_Z lo <= q)%Q /\ (q <= inject_Z hi)%Q.
Proof.
  destruct (perform_analysis_derived_frame self now df Hdf Hrows)
    as [q [lo [hi [_ [Eq [Hpa [Hlo [Hhi [Hb Hne]]]]]]]]].
  destruct (arithmetic_mean_bounds lo hi _ Hne Hb) as [H1 H2].
  eexists. eexists. exists q, lo, hi.
  split; [exact Hpa|]. repeat (split; [reflexivity|]).
  rewrite Eq.
  apply (nearest_float64_between (arithmetic_mean (column_ints df "title_length")));
    try assumption.
  - apply fl_nearest.
  - apply is_float64_Z. now apply (exact_sum_member _ _ Hsum).
  - apply is_float64_Z. now apply (exact_sum_member _ _ Hsum).
Qed.

Lemma average_between_extrema_witness :
  derived_frame (derived "2024-01-01T00:00:00+00:00" scenario) = true
  /\ nrows (derived "2024-01-01T00:00:00+00:00" scenario) <> 0%nat
  /\ exact_sum (column_ints (derived "2024-01-01T00:00:00+00:00" scenario)
                            "title_length") = true
  /\ exists analysis summary q lo hi,
       perform_analysis an_instance "2024-01-01T00:00:05+00:00"
         (derived "2024-01-01T00:00:00+00:00" scenario) = Ok analysis
       /\ py_item (KStr "data_summary") analysis = Some summary
       /\ py_item (KStr "avg_title_length") summary = Some (PFloat (F q))
       /\ py_item (KStr "min_title_length") summary = Some (PInt lo)
       /\ py_item (KStr "max_title_length") summary = Some (PInt hi)
       /\ (inject_Z lo <= q)%Q /\ (q <= inject_Z hi)%Q.
Proof.
  assert (Hrows : nrows (derived "2024-01-01T00:00:00+00:00" scenario) <> 0%nat)
    by discriminate.
  split; [reflexivity|]. split; [exact Hrows|]. split; [reflexivity|].
  apply (average_between_extrema an_instance "2024-01-01T00:00:05+00:00"
           (derived "2024-01-01T00:00:00+00:00" scenario) eq_refl Hrows eq_refl).
Defined.

(** ** The order of the groups *)

Lemma key_leb_total (a b : pykey) : key_leb a b = true \/ key_leb b a = true.
Proof.
  destruct a as [x|x|x], b as [y|y|y]; simpl; auto;
    try (destruct (Z.leb_spec x y); [now left | right; apply Z.leb_le; lia]).
  apply String.leb_total.
Qed.

Lemma insert_sorted_Sorted (k : pykey) (ks : list pykey) :
  Sorted (fun a b => key_leb a b = true) ks ->
  Sorted (fun a b => key_leb a b = true) (insert_sorted k ks).
Proof.
  induction 1 as [|k' ks Hs IH Hhd]; simpl.
  - repeat constructor.
  - destruct (key_leb k k') eqn:E.
    + constructor; [now constructor | now constructor].
    + assert (Hk : key_leb k' k = true)
        by (destruct (key_leb_total k k'); congruence).
      constructor; [exact IH|].
      destruct ks as [|k'' ks]; simpl; [now constructor|].
      destruct (key_leb k k''); constructor; [exact Hk|].
      now inversion Hhd.
Qed.

Lemma sort_keys_Sorted (ks : list pykey) :
  Sorted (fun a b => key_leb a b = true) (sort_keys ks).
Proof.
  induction ks as [|k ks IH]; simpl; [constructor|].
  now apply insert_sorted_Sorted.
Qed.

Lemma int_keys_map (ks : list pykey) :
  (forall k, In k ks -> exists g, k = KInt g) -> exists gs, ks = map KInt gs.
Proof.
  induction ks as [|k ks IH]; intros H; [now exists []|].
  destruct (H k (or_introl eq_refl)) as [g ->].
  destruct (IH (fun k' Hk' => H k' (or_intror Hk'))) as [gs ->].
  now exists (g :: gs).
Qed.

Lemma Sorted_int_keys (gs : list Z) :
  Sorted (fun a b => key_leb a b = true) (map KInt gs) -> Sorted Z.le gs.
Proof.
  induction gs as [|g gs IH]; intros H; [constructor|].
  inversion H as [|? ? Hs Hhd]; subst. constructor; [now apply IH|].
  destruct gs as [|g' gs]; constructor.
  inversion Hhd as [|? ? Hle]; subst. simpl in Hle. now apply Z.leb_le.
Qed.

Lemma Sorted_NoDup_lt (gs : list Z) :
  Sorted Z.le gs -> NoDup gs -> StronglySorted Z.lt gs.
Proof.
  intros Hs Hnd. apply Sorted_StronglySorted in Hs; [|exact Z.le_trans].
  induction Hs as [|g gs Hs IH Hall]; [constructor|].
  inversion Hnd as [|? ? Hnotin Hnd']; subst.
  constructor; [now apply IH|].
  rewrite Forall_forall in *. intros x Hx. specialize (Hall x Hx).
  assert (x <> g) by (intros ->; contradiction). lia.
Qed.

(** X7: the rows of the per-user statistics come in strictly ascending
    order of userId. *)
Theorem breakdown_in_ascending_order (df : DataFrame)
    (Hdf : derived_frame df = true) :
  exists stats gs,
    user_stats df = Ok stats
    /\ map fst stats = map KInt gs
    /\ StronglySorted Z.lt gs.
Proof.
  destruct (user_stats_derived_frame df Hdf) as [Hstats _].
  set (by_ := mkSeries Int64 (map CInt (column_ints df "userId"))) in *.
  destruct (int_keys_map (group_keys by_)) as [gs Hgs].
  { intros k Hk. apply group_keys_ints in Hk. destruct Hk as [g [-> _]]. now exists g. }
  eexists. exists gs. split; [exact Hstats|].
  rewrite map_map. cbn [fst]. rewrite map_id. split; [exact Hgs|].
  apply Sorted_NoDup_lt.
  - apply Sorted_int_keys. rewrite <- Hgs. apply sort_keys_Sorted.
  - apply (NoDup_map_inv KInt). rewrite <- Hgs. apply group_keys_NoDup.
Qed.

Lemma breakdown_in_ascending_order_witness :
  derived_frame (derived "2024-01-01T00:00:00+00:00" scenario) = true
  /\ exists stats gs,
       user_stats (derived "2024-01-01T00:00:00+00:00" scenario) = Ok stats
       /\ map fst stats = map KInt gs
       /\ StronglySorted Z.lt gs.
Proof.
  split; [reflexivity|].
  apply (breakdown_in_ascending_order (derived "2024-01-01T00:00:00+00:00" scenario)).
  reflexivity.
Defined.

(** ** What a run leaves behind *)

Lemma paths_differ (self other : DataProcessor) :
  String.eqb (csv_path self) (json_path other) = false
  /\ String.eqb (json_path self) (csv_path other) = false.
Proof. split; reflexivity. Qed.

Lemma fetch_at_most_10 (o : outcome) (rs : list record) :
  fetch_sample_data o = Ok (DList rs) -> (List.length rs <= 10)%nat.
Proof.
  destruct (request_fails o) eqn:Hf.
  - rewrite (fetch_request_fails o Hf). intros [= <-]. simpl. lia.
  - destruct o as [| |status [|j]]; try discriminate.
    + simpl in Hf. rewrite orb_true_r in Hf. discriminate.
    + simpl in Hf. rewrite orb_false_r in Hf.
      unfold fetch_sample_data, raise_for_status; cbn [requests_get bind fst].
      rewrite Hf. cbn [bind response_json snd].
      destruct j as [| | | |l|]; cbn [slice10]; try discriminate.
      intros [= <-]. exact (firstn_le_length 10 l).
Qed.

(** What [run] has done when it returns 0, whatever the file system
    was. *)
Lemma run_success (self : DataProcessor) (t_process t_analysis : string)
    (o : outcome) (fs fs' : filesystem) :
  run self t_process t_analysis o fs = (0, fs') ->
  exists rs analysis,
    fetch_sample_data o = Ok (DList rs)
    /\ process_data t_process (DList rs) = Ok (derived t_process rs)
    /\ has_key "title" rs = true
    /\ perform_analysis self t_analysis (derived t_process rs) = Ok analysis
    /\ fs' = save_results self (derived t_process rs) analysis fs
    /\ forall fs0, run self t_process t_analysis o fs0
                   = (0, save_results self (derived t_process rs) analysis fs0).
Proof.
  unfold run. destruct (fetch_sample_data o) as [[rs|s]|e]; cbn [bind];
    try discriminate.
  pose proof (process_data_cases t_process rs) as Hc.
  destruct (has_key "title" rs) eqn:Ht; cbn [negb] in Hc; [|rewrite Hc; discriminate].
  destruct (object_column "title" rs); cbn [negb] in Hc; [|rewrite Hc; discriminate].
  destruct (has_key "body" rs); cbn [negb] in Hc; [|rewrite Hc; discriminate].
  destruct (object_column "body" rs); cbn [negb] in Hc; [|rewrite Hc; discriminate].
  destruct (has_key "userId" rs); cbn [negb] in Hc; [|rewrite Hc; discriminate].
  destruct (has_key "id" rs); cbn [negb] in Hc; [|rewrite Hc; discriminate].
  rewrite Hc. cbn [bind].
  destruct (perform_analysis self t_analysis (derived t_process rs))
    as [analysis|e] eqn:Ha; cbn [bind]; [|discriminate].
  unfold try_save_results.
  destruct (open_w (csv_name self)); cbn [bind]; [|discriminate].
  destruct (open_w (json_name self)); cbn [bind simulate_work]; [|discriminate].
  intros [= <-]. exists rs, analysis.
  split; [reflexivity|]. split; [exact Hc|]. split; [exact Ht|].
  split; [exact Ha|]. split; reflexivity.
Qed.

(** X9: when [run] returns 0, the data source gave between 1 and 10
    records; the CSV file of the execution id holds their header and
    one row per record, the JSON file holds the report, and every other
    path of the file system is as it was. *)
Theorem successful_run_outputs (self : DataProcessor) (t_process t_analysis : string)
    (o : outcome) (fs fs' : filesystem)
    (Hrun : run self t_process t_analysis o fs = (0, fs')) :
  exists rs df analysis,
    fetch_sample_data o = Ok (DList rs)
    /\ (1 <= List.length rs <= 10)%nat
    /\ process_data t_process (DList rs) = Ok df
    /\ perform_analysis self t_analysis df = Ok analysis
    /\ dict_get (csv_path self) fs' = Some (CsvFile (to_csv df))
    /\ List.length (csv_rows df) = List.length rs
    /\ dict_get (json_path self) fs' = Some (JsonFile (json_dump analysis))
    /\ forall p, p <> csv_path self -> p <> json_path self ->
         dict_get p fs' = dict_get p fs.
Proof.
  destruct (run_success _ _ _ _ _ _ Hrun)
    as [rs [analysis [Hf [Hp [Ht [Ha [-> _]]]]]]].
  exists rs, (derived t_process rs), analysis.
  split; [exact Hf|]. split.
  { split; [|now apply (fetch_at_most_10 o)].
    pose proof (has_key_nonempty _ _ Ht). destruct rs; [congruence | simpl; lia]. }
  split; [exact Hp|]. split; [exact Ha|].
  destruct (paths_differ self self) as [Hcj Hjc].
  unfold save_results. rewrite !dict_get_set, Hcj, !String.eqb_refl.
  split; [reflexivity|].
  split; [unfold csv_rows; now rewrite length_map, length_seq|].
  split; [reflexivity|].
  intros p Hp1 Hp2. rewrite !dict_get_set.
  apply String.eqb_neq in Hp1, Hp2. now rewrite Hp1, Hp2.
Qed.

Lemma successful_run_outputs_witness :
  run an_instance "t1" "t2" (Response 200 (Json (JArr scenario))) []
  = (0, snd (run an_instance "t1" "t2" (Response 200 (Json (JArr scenario))) []))
  /\ exists rs,
       fetch_sample_data (Response 200 (Json (JArr scenario))) = Ok (DList rs)
       /\ (1 <= List.length rs <= 10)%nat.
Proof.
  assert (H : run an_instance "t1" "t2" (Response 200 (Json (JArr scenario))) []
              = (0, snd (run an_instance "t1" "t2"
                           (Response 200 (Json (JArr scenario))) [])))
    by (vm_compute; reflexivity).
  split; [exact H|].
  destruct (successful_run_outputs _ _ _ _ _ _ H) as [rs [df [analysis [H1 [H2 _]]]]].
  exists rs. split; assumption.
Defined.

Lemma mock_is_well_formed :
  _generate_mock_data <> [] /\ forallb wf_record _generate_mock_data = true.
Proof. split; [discriminate | reflexivity]. Qed.

Lemma has_slash_app (a b : string) :
  has_slash (a ++ b) = has_slash a || has_slash b.
Proof.
  induction a as [|c a IH]; simpl; [reflexivity|].
  now rewrite IH, orb_assoc.
Qed.

Lemma utf8_length_app (a b : string) :
  utf8_length (a ++ b) = (utf8_length a + utf8_length b)%nat.
Proof.
  induction a as [|c a IH]; simpl; [reflexivity|]. rewrite IH. lia.
Qed.

(** Both files open when the execution id is a plain part of a file
    name. *)
Lemma plain_id_opens (self : DataProcessor) :
  plain_id (execution_uuid self) = true ->
  open_w (csv_name self) = Ok tt /\ open_w (json_name self) = Ok tt.
Proof.
  unfold plain_id, open_w, csv_name, json_name. intros H.
  apply andb_true_iff in H. destruct H as [Hs Hl].
  apply negb_true_iff in Hs. apply Nat.leb_le in Hl.
  rewrite !has_slash_app, !utf8_length_app, Hs.
  cbn [has_slash utf8_length Ascii.eqb Bool.eqb slash ascii_of_nat orb].
  split.
  - replace (255 <? _)%nat with false; [reflexivity|].
    symmetry. apply Nat.ltb_ge. simpl. lia.
  - replace (255 <? _)%nat with false; [reflexivity|].
    symmetry. apply Nat.ltb_ge. simpl. lia.
Qed.

(** X8: when the data source fails with a RequestException and the
    execution id of the environment (local-run when it sets none) is a
    plain part of a file name, without '/' and of 236 bytes at most,
    [main] exits with status 0: it writes the CSV file of the ten
    fallback records and the report of ten records under that id. *)
Theorem main_succeeds_on_fallback (env : environ) (t_process t_analysis : string)
    (o : outcome) (fs : filesystem)
    (Hfail : request_fails o = true)
    (Hid : plain_id (getenv env "CRONJOB_EXECUTION_UUID" "local-run") = true) :
  exists fs' analysis summary,
    main env t_process t_analysis o fs = (0, fs')
    /\ dict_get ("/tmp/cronjob_output/processed_data_"
                 ++ getenv env "CRONJOB_EXECUTION_UUID" "local-run" ++ ".csv") fs'
       = Some (CsvFile (to_csv (derived t_process _generate_mock_data)))
    /\ List.length (csv_rows (derived t_process _generate_mock_data)) = 10%nat
    /\ dict_get ("/tmp/cronjob_output/analysis_"
                 ++ getenv env "CRONJOB_EXECUTION_UUID" "local-run" ++ ".json") fs'
       = Some (JsonFile (json_dump analysis))
    /\ py_item (KStr "data_summary") analysis = Some summary
    /\ py_item (KStr "total_records") summary = Some (PInt 10).
Proof.
  destruct mock_is_well_formed as [Hne Hwf].
  destruct (process_data_wf t_process _ Hne Hwf) as [Hpd Hdf].
  assert (Hrows : nrows (derived t_process _generate_mock_data) <> 0%nat)
    by discriminate.
  destruct (perform_analysis_derived_frame (__init__ env) t_analysis _ Hdf Hrows)
    as [q [lo [hi [_ [_ [Hpa _]]]]]].
  destruct (plain_id_opens (__init__ env) Hid) as [Hcsv Hjson].
  match type of Hpa with _ = Ok ?a => set (analysis := a) in * end.
  exists (save_results (__init__ env) (derived t_process _generate_mock_data) analysis fs),
         analysis.
  eexists.
  split.
  { unfold main, run. rewrite (fetch_request_fails o Hfail). cbn [bind].
    rewrite Hpd. cbn [bind]. rewrite Hpa. cbn [bind].
    unfold try_save_results. rewrite Hcsv, Hjson. reflexivity. }
  destruct (paths_differ (__init__ env) (__init__ env)) as [Hcj Hjc].
  change ("/tmp/cronjob_output/processed_data_"
          ++ getenv env "CRONJOB_EXECUTION_UUID" "local-run" ++ ".csv")%string
    with (csv_path (__init__ env)).
  change ("/tmp/cronjob_output/analysis_"
          ++ getenv env "CRONJOB_EXECUTION_UUID" "local-run" ++ ".json")%string
    with (json_path (__init__ env)).
  unfold save_results. rewrite !dict_get_set, Hcj, !String.eqb_refl.
  split; [reflexivity|]. split; [reflexivity|]. split; [reflexivity|].
  split; reflexivity.
Qed.

Lemma main_succeeds_on_fallback_witness :
  request_fails (Response 503 NotJson) = true
  /\ plain_id (getenv [("CRONJOB_EXECUTION_UUID", "run-7f3a")]
                      "CRONJOB_EXECUTION_UUID" "local-run") = true
  /\ exists fs',
       main [("CRONJOB_EXECUTION_UUID", "run-7f3a")] "t1" "t2"
            (Response 503 NotJson) [] = (0, fs')
       /\ keys fs' = [ "/tmp/cronjob_output/processed_data_run-7f3a.csv";
                       "/tmp/cronjob_output/analysis_run-7f3a.json" ].
Proof.
  split; [reflexivity|]. split; [reflexivity|].
  destruct (main_succeeds_on_fallback [("CRONJOB_EXECUTION_UUID", "run-7f3a")]
              "t1" "t2" (Response 503 NotJson) [] eq_refl eq_refl)
    as [fs' [analysis [summary [H _]]]].
  exists fs'. split; [exact H|].
  assert (E : fs' = snd (main [("CRONJOB_EXECUTION_UUID", "run-7f3a")] "t1" "t2"
                           (Response 503 NotJson) []))
    by (rewrite H; reflexivity).
  rewrite E. vm_compute. reflexivity.
Defined.



(** ** Reruns and execution ids *)

Section DictSet.
Context {A : Type}.

Lemma dict_set_twice (k : string) (v1 v2 : A) (d : dict A) :
  dict_set k v2 (dict_set k v1 d) = dict_set k v2 d.
Proof.
  induction d as [|[k0 v0] d IH]; simpl.
  - now rewrite String.eqb_refl.
  - destruct (String.eqb k k0) eqn:E; simpl.
    + now rewrite String.eqb_refl.
    + now rewrite E, IH.
Qed.

Lemma dict_set_over (k k' : string) (v1 v2 w : A) (d : dict A) :
  String.eqb k k' = false ->
  dict_set k v2 (dict_set k' w (dict_set k v1 d))
  = dict_set k' w (dict_set k v2 d).
Proof.
  intros Hne.
  assert (Hne' : String.eqb k' k = false) by (now rewrite String.eqb_sym).
  induction d as [|[k0 v0] d IH]; simpl.
  - rewrite Hne'. simpl. now rewrite String.eqb_refl.
  - destruct (String.eqb k k0) eqn:E; simpl.
    + rewrite Hne'. simpl. now rewrite String.eqb_refl.
    + destruct (String.eqb k' k0) eqn:E'; simpl.
      * apply String.eqb_eq in E'. subst k0.
        rewrite Hne. now rewrite dict_set_twice.
      * now rewrite E, IH.
Qed.

Lemma dict_set_keys_present (k : string) (v : A) (d : dict A) :
  existsb (String.eqb k) (keys d) = true -> keys (dict_set k v d) = keys d.
Proof. intros H. rewrite keys_dict_set. unfold add_key. now rewrite H. Qed.

Lemma dict_set_has_key (k k' : string) (v : A) (d : dict A) :
  existsb (String.eqb k) (keys (dict_set k' v d))
  = existsb (String.eqb k) (keys d) || String.eqb k k'.
Proof. rewrite keys_dict_set. apply existsb_add_key. Qed.
End DictSet.

Lemma save_results_again (self1 self2 : DataProcessor) (df1 df2 : DataFrame)
    (a1 a2 : pyobj) (fs : filesystem) :
  execution_uuid self1 = execution_uuid self2 ->
  save_results self2 df2 a2 (save_results self1 df1 a1 fs)
  = save_results self2 df2 a2 fs
  /\ keys (save_results self2 df2 a2 (save_results self1 df1 a1 fs))
     = keys (save_results self1 df1 a1 fs).
Proof.
  intros E.
  assert (Ec : csv_path self1 = csv_path self2) by (unfold csv_path; now rewrite E).
  assert (Ej : json_path self1 = json_path self2) by (unfold json_path; now rewrite E).
  destruct (paths_differ self2 self2) as [Hcj Hjc].
  unfold save_results. rewrite Ec, Ej. split.
  - rewrite (dict_set_over (csv_path self2) (json_path self2)) by exact Hcj.
    now rewrite dict_set_twice.
  - set (X := dict_set (json_path self2) (JsonFile (json_dump a1))
                (dict_set (csv_path self2) (CsvFile (to_csv df1)) fs)).
    assert (Hc : existsb (String.eqb (csv_path self2)) (keys X) = true).
    { unfold X. rewrite !dict_set_has_key, String.eqb_refl.
      now rewrite orb_true_r. }
    assert (Hj : existsb (String.eqb (json_path self2)) (keys X) = true).
    { unfold X. rewrite !dict_set_has_key, String.eqb_refl.
      now rewrite orb_true_r. }
    rewrite dict_set_keys_present.
    + now apply dict_set_keys_present.
    + rewrite dict_set_has_key, Hj. reflexivity.
Qed.

(** X10: a rerun under the same execution id replaces the output of the
    first run: the file system after the second run is the one that the
    second run alone would have left, and it has no path that the first
    run had not left. *)
Theorem rerun_overwrites (self1 self2 : DataProcessor)
    (t1 t2 t3 t4 : string) (o1 o2 : outcome) (fs fs1 fs2 : filesystem)
    (Hid : execution_uuid self1 = execution_uuid self2)
    (Hfirst : run self1 t1 t2 o1 fs = (0, fs1))
    (Hsecond : run self2 t3 t4 o2 fs1 = (0, fs2)) :
  run self2 t3 t4 o2 fs = (0, fs2) /\ keys fs2 = keys fs1.
Proof.
  destruct (run_success _ _ _ _ _ _ Hfirst)
    as [rs1 [a1 [_ [_ [_ [_ [-> _]]]]]]].
  destruct (run_success _ _ _ _ _ _ Hsecond)
    as [rs2 [a2 [_ [_ [_ [_ [-> Hany]]]]]]].
  destruct (save_results_again self1 self2 (derived t1 rs1) (derived t3 rs2) a1 a2 fs Hid)
    as [Hsame Hkeys].
  split; [now rewrite Hany, Hsame | exact Hkeys].
Qed.

Lemma rerun_overwrites_witness :
  exists fs1 fs2,
    run an_instance "t1" "t2" Timeout [] = (0, fs1)
    /\ run an_instance "t3" "t4" (Response 200 (Json (JArr scenario))) fs1 = (0, fs2)
    /\ run an_instance "t3" "t4" (Response 200 (Json (JArr scenario))) [] = (0, fs2)
    /\ keys fs2 = keys fs1.
Proof.
  assert (H1 : run an_instance "t1" "t2" Timeout []
               = (0, snd (run an_instance "t1" "t2" Timeout [])))
    by (vm_compute; reflexivity).
  assert (H2 : run an_instance "t3" "t4" (Response 200 (Json (JArr scenario)))
                 (snd (run an_instance "t1" "t2" Timeout []))
               = (0, snd (run an_instance "t3" "t4" (Response 200 (Json (JArr scenario)))
                            (snd (run an_instance "t1" "t2" Timeout [])))))
    by (vm_compute; reflexivity).
  destruct (rerun_overwrites an_instance an_instance "t1" "t2" "t3" "t4" _ _ _ _ _
              eq_refl H1 H2) as [H3 H4].
  eexists. eexists. split; [exact H1|]. split; [exact H2|].
  split; [exact H3 | exact H4].
Defined.

Lemma length_append (a b : string) :
  String.length (a ++ b) = (String.length a + String.length b)%nat.
Proof. induction a as [|c a IH]; simpl; [reflexivity | now rewrite IH]. Qed.

Lemma append_cancel_l (p a b : string) : (p ++ a = p ++ b)%string -> a = b.
Proof. induction p as [|c p IH]; simpl; [auto | intros [= H]; auto]. Qed.

Lemma append_cancel_r (a b s : string) : (a ++ s = b ++ s)%string -> a = b.
Proof.
  revert b. induction a as [|c a IH]; intros [|c' b] H.
  - reflexivity.
  - apply (f_equal String.length) in H. simpl in H. rewrite length_append in H. lia.
  - apply (f_equal String.length) in H. simpl in H. rewrite length_append in H. lia.
  - simpl in H. injection H as -> H. f_equal. now apply IH.
Qed.

Lemma csv_path_inj (self other : DataProcessor) :
  csv_path self = csv_path other -> execution_uuid self = execution_uuid other.
Proof.
  unfold csv_path. intros H.
  apply append_cancel_l, append_cancel_l in H. now apply append_cancel_r in H.
Qed.

Lemma json_path_inj (self other : DataProcessor) :
  json_path self = json_path other -> execution_uuid self = execution_uuid other.
Proof.
  unfold json_path. intros H.
  apply append_cancel_l, append_cancel_l in H. now apply append_cancel_r in H.
Qed.

(** X11: a run does not touch the output files of another execution id:
    whatever the run does, the CSV and JSON files of the other id are
    after it as they were before. *)
Theorem other_ids_untouched (self other : DataProcessor)
    (t_process t_analysis : string) (o : outcome) (fs : filesystem)
    (Hid : execution_uuid self <> execution_uuid other) :
  dict_get (csv_path other) (snd (run self t_process t_analysis o fs))
  = dict_get (csv_path other) fs
  /\ dict_get (json_path other) (snd (run self t_process t_analysis o fs))
     = dict_get (json_path other) fs.
Proof.
  assert (Hcc : String.eqb (csv_path other) (csv_path self) = false).
  { apply String.eqb_neq. intros E. apply Hid. symmetry. now apply csv_path_inj. }
  assert (Hjj : String.eqb (json_path other) (json_path self) = false).
  { apply String.eqb_neq. intros E. apply Hid. symmetry. now apply json_path_inj. }
  destruct (paths_differ other self) as [Hcj Hjc].
  unfold run.
  destruct (fetch_sample_data o) as [raw|e]; cbn [bind snd]; [|now split].
  destruct (process_data t_process raw) as [df|e]; cbn [bind snd]; [|now split].
  destruct (perform_analysis self t_analysis df) as [a|e]; cbn [bind snd]; [|now split].
  unfold try_save_results.
  destruct (open_w (csv_name self)); cbn [bind snd]; [|now split].
  destruct (open_w (json_name self)); cbn [bind snd]; [|now split].
  unfold simulate_work, save_results. rewrite !dict_get_set, Hcc, Hjj, Hcj, Hjc.
  now split.
Qed.

Lemma other_ids_untouched_witness :
  execution_uuid another_instance <> execution_uuid an_instance
  /\ dict_get (csv_path an_instance)
       (snd (run another_instance "t3" "t4" Timeout
               (snd (run an_instance "t1" "t2" Timeout []))))
     = dict_get (csv_path an_instance) (snd (run an_instance "t1" "t2" Timeout [])).
Proof.
  assert (H : execution_uuid another_instance <> execution_uuid an_instance)
    by discriminate.
  split; [exact H|].
  apply (other_ids_untouched another_instance an_instance "t3" "t4" Timeout
           (snd (run an_instance "t1" "t2" Timeout [])) H).
Defined.

(** ** How the CSV file shows a missing title *)

Lemma dict_get_nth {A : Type} (k : string) (d : dict A) (v : A) :
  dict_get k d = Some v ->
  exists j, nth_error d j = Some (k, v) /\ nth_error (keys d) j = Some k.
Proof.
  induction d as [|[k0 v0] d IH]; simpl; [discriminate|].
  destruct (String.eqb_spec k k0) as [->|Hne].
  - intros [= ->]. now exists 0%nat.
  - intros H. destruct (IH H) as [j [H1 H2]]. now exists (S j).
Qed.

Lemma title_length_dtype (rs : list record) :
  has_str "title" rs = true ->
  dtype_of (lengths_series (map title_length_cell rs))
  = if forallb (str_field "title") rs then Int64 else Float64.
Proof.
  intros Hstr. unfold lengths_series. rewrite has_str_title_length, Hstr.
  cbn [dtype_of].
  replace (existsb is_nan (map title_length_cell rs))
    with (negb (forallb (str_field "title") rs)).
  - now destruct (forallb (str_field "title") rs).
  - clear Hstr. induction rs as [|r rs IH]; simpl; [reflexivity|].
    rewrite negb_andb, IH. f_equal.
    unfold str_field, title_length_cell.
    destruct (dict_get "title" r) as [[| |]|]; reflexivity.
Qed.

(** X14: in the CSV file of a batch that [process_data] accepts, the
    field under the header title_length holds the length of the title
    as an integer when every title of the batch is a string; once some
    title is null or absent, that record's field is empty and the
    lengths of the others are written as floats, with a trailing [.0]. *)
Theorem title_length_field_in_csv (now : string) (rs : list record)
    (i : nat) (r : record)
    (Htitle : has_str "title" rs = true) (Hbody : has_str "body" rs = true)
    (Hid : has_key "id" rs = true) (Huser : has_key "userId" rs = true)
    (Hi : nth_error rs i = Some r) :
  exists df j,
    process_data now (DList rs) = Ok df
    /\ nth_error (keys (columns df)) j = Some "title_length"
    /\ nth_error (csv_rows df) i = Some (csv_row df i)
    /\ nth_error (csv_row df i) j
       = Some (match dict_get "title" r with
               | Some (VStr s) =>
                   if forallb (str_field "title") rs
                   then str_of_Z (len s)
                   else str_of_Z (len s) ++ ".0"
               | _ => ""
               end).
Proof.
  exists (derived now rs).
  assert (Hget : dict_get "title_length" (columns (derived now rs))
                 = Some (lengths_series (map title_length_cell rs))).
  { unfold derived, setitem; cbn [columns]. now rewrite !dict_get_set. }
  destruct (dict_get_nth _ _ _ Hget) as [j [Hj Hkey]].
  exists j. split; [now apply process_data_derived|]. split; [exact Hkey|].
  assert (Hlt : (i < List.length rs)%nat)
    by (apply nth_error_Some; congruence).
  split.
  { unfold csv_rows. change (nrows (derived now rs)) with (List.length rs).
    rewrite (map_nth_error (csv_row (derived now rs)) i (seq 0 (List.length rs))
               (d := i)); [reflexivity|].
    rewrite nth_error_seq. apply Nat.ltb_lt in Hlt. now rewrite Hlt. }
  unfold csv_row. rewrite (map_nth_error _ j _ Hj). cbn [snd].
  rewrite (title_length_dtype rs Htitle). f_equal.
  assert (Hint : existsb is_int (map title_length_cell rs) = true)
    by (now rewrite has_str_title_length).
  rewrite (nth_error_nth _ _ CNaN
             (nth_error_lengths_series title_length_cell rs i r Hint Hi)).
  unfold title_length_cell.
  destruct (dict_get "title" r) as [[| |s]|]; try reflexivity.
  now destruct (forallb (str_field "title") rs).
Qed.

Lemma title_length_field_in_csv_witness :
  has_str "title" null_title_batch = true
  /\ nth_error null_title_batch 1 = Some
       [("id", VInt 2); ("title", VStr "CDE"); ("body", VStr "d e"); ("userId", VInt 1)]
  /\ exists df j,
       process_data "t1" (DList null_title_batch) = Ok df
       /\ nth_error (keys (columns df)) j = Some "title_length"
       /\ nth_error (csv_row df 1) j = Some "3.0".
Proof.
  split; [reflexivity|]. split; [reflexivity|].
  destruct (title_length_field_in_csv "t1" null_title_batch 1
              [("id", VInt 2); ("title", VStr "CDE"); ("body", VStr "d e"); ("userId", VInt 1)]
              eq_refl eq_refl eq_refl eq_refl eq_refl)
    as [df [j [H1 [H2 [_ H4]]]]].
  exists df, j. split; [exact H1|]. split; [exact H2 | exact H4].
Defined.

(** ** A payload that is not an array *)

(** X15: a response whose status passes and whose JSON payload is not
    an array (null, a boolean, a number, a string, an object) is not
    replaced by the fallback dataset: the run returns exit code 1 and
    leaves the file system as it was. *)
Theorem non_array_payload_fails_run (self : DataProcessor)
    (t_process t_analysis : string) (o : outcome) (fs : filesystem)
    (Hpayload : not_an_array o = true) :
  fetch_sample_data o <> Ok (DList _generate_mock_data)
  /\ run self t_process t_analysis o fs = (1, fs).
Proof.
  destruct o as [| |status [|j]]; try discriminate.
  simpl in Hpayload. apply andb_true_iff in Hpayload.
  destruct Hpayload as [Hs Hj]. apply negb_true_iff in Hs.
  unfold run, fetch_sample_data, raise_for_status; cbn [requests_get bind fst].
  rewrite Hs. cbn [bind response_json snd].
  destruct j; try discriminate; cbn [slice10 bind]; split;
    first [discriminate | reflexivity].
Qed.

Lemma non_array_payload_fails_run_witness :
  not_an_array (Response 200 (Json (JStr "maintenance"))) = true
  /\ run an_instance "t1" "t2" (Response 200 (Json (JStr "maintenance"))) [] = (1, []).
Proof.
  split; [reflexivity|].
  apply (non_array_payload_fails_run an_instance "t1" "t2"
           (Response 200 (Json (JStr "maintenance"))) [] eq_refl).
Defined.
